(** * Wake-Cycle Tools: a shallow embedding of [tools/wake-tools/main.py]

    The service keeps three JSON documents on disk (state, backlog,
    accomplishments) and exposes seven endpoints that load a document,
    change it and write it back.  The embedding follows the Python text:

    - JSON values are an inductive type; a Python [dict] is an association
      list in insertion order, with [d[k] = v] replacing in place or
      appending, as CPython does;
    - a file is absent, unreadable as JSON, or holds a parsed value;
    - the three module-level dictionaries [DEFAULT_STATE], [DEFAULT_BACKLOG]
      and [DEFAULT_ACCOMPLISHMENTS] are mutable objects of the process:
      [load_json] hands out the object itself, so a local variable is a
      handle that is either a private value or an alias of a global;
    - endpoints run in a state-and-exception monad over the world
      (files, globals, clock ticks, forwarded notifications).

    Calls to [logger] are not part of the model, and neither is the
    temporary file of [save_json], which the rename removes.  Writes are
    taken to succeed: an [OSError] of [save_json] is outside the model.
    JSON numbers are integers or binary64 floats, as [json.load] gives
    them. *)

From Stdlib Require Import String Ascii List ZArith Lia Bool Arith.
From Stdlib Require Import PrimFloat DecimalString DecimalNat DecimalFacts.
From Stdlib Require Import Permutation Sorted.
Import ListNotations.

Local Open Scope string_scope.
Local Open Scope Z_scope.

(* ================================================================== *)
(** ** JSON values and the Python operations used on them *)
(* ================================================================== *)

#[local] Set Warnings "-register-all".

Inductive json : Type :=
| JNull
| JBool (b : bool)
| JInt (z : Z)
| JFloat (f : float)
| JStr (s : string)
| JList (l : list json)
| JDict (d : list (string * json)).

Definition dict := list (string * json).

Inductive exn : Type :=
| AttributeError
| TypeError
| KeyError (k : string)
| HTTPError
| HTTPException (status_code : Z) (detail : string).

Inductive outcome (A : Type) : Type :=
| Return (a : A)
| Raise (e : exn).
Arguments Return {A} a.
Arguments Raise {A} e.

(** [d.get(k)] on the association list. *)
Fixpoint dict_get (k : string) (d : dict) : option json :=
  match d with
  | [] => None
  | (k', v) :: d' => if String.eqb k k' then Some v else dict_get k d'
  end.

(** [d[k] = v]: an existing key keeps its position, a new key goes last. *)
Fixpoint dict_set (k : string) (v : json) (d : dict) : dict :=
  match d with
  | [] => [(k, v)]
  | (k', v') :: d' =>
      if String.eqb k k' then (k', v) :: d' else (k', v') :: dict_set k v d'
  end.

(** Python truthiness, as used by [if not x] and [if x]. *)
Definition truthy (v : json) : bool :=
  match v with
  | JNull => false
  | JBool b => b
  | JInt z => negb (z =? 0)
  | JFloat f => negb (PrimFloat.eqb f 0%float)
  | JStr s => negb (String.eqb s "")
  | JList l => match l with [] => false | _ => true end
  | JDict d => match d with [] => false | _ => true end
  end.

(** [v == s] for a Python string [s]: only an equal string compares equal. *)
Definition py_eq_str (v : json) (s : string) : bool :=
  match v with
  | JStr s' => String.eqb s' s
  | _ => false
  end.

(** [v.get(k, dflt)]: only dictionaries have [get]. *)
Definition py_get (v : json) (k : string) (dflt : json) : outcome json :=
  match v with
  | JDict d => Return (match dict_get k d with Some x => x | None => dflt end)
  | _ => Raise AttributeError
  end.

(** [v[k]] with a string key. *)
Definition py_getitem (v : json) (k : string) : outcome json :=
  match v with
  | JDict d => match dict_get k d with
               | Some x => Return x
               | None => Raise (KeyError k)
               end
  | _ => Raise TypeError
  end.

(** [v[k] = x] with a string key. *)
Definition py_setitem (v : json) (k : string) (x : json) : outcome json :=
  match v with
  | JDict d => Return (JDict (dict_set k x d))
  | _ => Raise TypeError
  end.

(** [v + 1]: [bool] is a subclass of [int]. *)
Definition py_add1 (v : json) : outcome json :=
  match v with
  | JInt z => Return (JInt (z + 1))
  | JBool b => Return (JInt (Z.b2z b + 1))
  | JFloat f => Return (JFloat (PrimFloat.add f 1%float))
  | _ => Raise TypeError
  end.

Fixpoint chars (s : string) : list json :=
  match s with
  | EmptyString => []
  | String c s' => JStr (String c EmptyString) :: chars s'
  end.

(** [for t in v]: a list yields its items, a dictionary its keys, a string
    its characters; nothing else is iterable. *)
Definition py_iter (v : json) : outcome (list json) :=
  match v with
  | JList l => Return l
  | JDict d => Return (map (fun kv => JStr (fst kv)) d)
  | JStr s => Return (chars s)
  | _ => Raise TypeError
  end.

(** [f"{n:03d}"]: decimal digits, zero-filled to a minimum width of 3. *)
Definition format_03d (n : nat) : string :=
  let s := NilZero.string_of_uint (Nat.to_uint n) in
  match String.length s with
  | 1%nat => "00" ++ s
  | 2%nat => "0" ++ s
  | _ => s
  end.

(* ================================================================== *)
(** ** The world: files, module globals, clock, forwarded notifications *)
(* ================================================================== *)

Inductive path : Type := STATE_PATH | BACKLOG_PATH | ACCOMPLISHMENTS_PATH.

Inductive global : Type :=
  DEFAULT_STATE | DEFAULT_BACKLOG | DEFAULT_ACCOMPLISHMENTS.

(** What [path.exists()] and [json.load] see. *)
Inductive file : Type :=
| Missing
| Unparsable
| Parsed (v : json).

Record world : Type := mkWorld {
  state_file : file;
  backlog_file : file;
  accomplishments_file : file;
  default_state : json;
  default_backlog : json;
  default_accomplishments : json;
  ticks : nat;
  forwarded : list json
}.

(** The dictionary literals bound to the three globals at import time. *)
Definition literal (g : global) : json :=
  match g with
  | DEFAULT_STATE =>
      JDict [("version", JStr "1.0");
             ("wake_count", JInt 0);
             ("created_at", JNull);
             ("last_wake", JNull);
             ("current_focus", JStr "Initial setup");
             ("active_tasks", JList []);
             ("capabilities",
               JDict [("read_state", JBool true);
                      ("write_state", JBool true);
                      ("read_backlog", JBool true);
                      ("update_task", JBool true);
                      ("log_accomplishment", JBool true);
                      ("send_notification", JBool true)]);
             ("metrics",
               JDict [("total_accomplishments", JInt 0);
                      ("tasks_completed", JInt 0);
                      ("notifications_sent", JInt 0)])]
  | DEFAULT_BACKLOG => JDict [("tasks", JList [])]
  | DEFAULT_ACCOMPLISHMENTS => JDict [("accomplishments", JList [])]
  end.

(** The process right after import, over the given files. *)
Definition fresh_process (s b a : file) : world :=
  mkWorld s b a (literal DEFAULT_STATE) (literal DEFAULT_BACKLOG)
          (literal DEFAULT_ACCOMPLISHMENTS) 0 [].

Definition read_file (p : path) (w : world) : file :=
  match p with
  | STATE_PATH => state_file w
  | BACKLOG_PATH => backlog_file w
  | ACCOMPLISHMENTS_PATH => accomplishments_file w
  end.

Definition write_file (p : path) (f : file) (w : world) : world :=
  match p with
  | STATE_PATH =>
      mkWorld f (backlog_file w) (accomplishments_file w) (default_state w)
              (default_backlog w) (default_accomplishments w) (ticks w)
              (forwarded w)
  | BACKLOG_PATH =>
      mkWorld (state_file w) f (accomplishments_file w) (default_state w)
              (default_backlog w) (default_accomplishments w) (ticks w)
              (forwarded w)
  | ACCOMPLISHMENTS_PATH =>
      mkWorld (state_file w) (backlog_file w) f (default_state w)
              (default_backlog w) (default_accomplishments w) (ticks w)
              (forwarded w)
  end.

Definition global_val (g : global) (w : world) : json :=
  match g with
  | DEFAULT_STATE => default_state w
  | DEFAULT_BACKLOG => default_backlog w
  | DEFAULT_ACCOMPLISHMENTS => default_accomplishments w
  end.

Definition set_global (g : global) (v : json) (w : world) : world :=
  match g with
  | DEFAULT_STATE =>
      mkWorld (state_file w) (backlog_file w) (accomplishments_file w) v
              (default_backlog w) (default_accomplishments w) (ticks w)
              (forwarded w)
  | DEFAULT_BACKLOG =>
      mkWorld (state_file w) (backlog_file w) (accomplishments_file w)
              (default_state w) v (default_accomplishments w) (ticks w)
              (forwarded w)
  | DEFAULT_ACCOMPLISHMENTS =>
      mkWorld (state_file w) (backlog_file w) (accomplishments_file w)
              (default_state w) (default_backlog w) v (ticks w)
              (forwarded w)
  end.

(** A local variable bound to a document: a value of its own (the result
    of [json.load], or the request body), or the global object itself. *)
Inductive handle : Type :=
| Local (v : json)
| Alias (g : global).

(* ================================================================== *)
(** ** The state-and-exception monad *)
(* ================================================================== *)

Definition M (A : Type) : Type := world -> outcome A * world.

Definition ret {A} (a : A) : M A := fun w => (Return a, w).

Definition raise {A} (e : exn) : M A := fun w => (Raise e, w).

Definition bind {A B} (m : M A) (k : A -> M B) : M B :=
  fun w => match m w with
           | (Return a, w') => k a w'
           | (Raise e, w') => (Raise e, w')
           end.

Definition lift {A} (o : outcome A) : M A := fun w => (o, w).

(** [try: m except Exception: h]. *)
Definition try_except {A} (m : M A) (h : exn -> M A) : M A :=
  fun w => match m w with
           | (Return a, w') => (Return a, w')
           | (Raise e, w') => h e w'
           end.

Notation "x <- m ;; k" := (bind m (fun x => k))
  (at level 61, m at next level, right associativity).
Notation "m ;;; k" := (bind m (fun _ => k))
  (at level 61, right associativity).

(** The value a handle currently denotes. *)
Definition deref (h : handle) : M json :=
  fun w => match h with
           | Local v => (Return v, w)
           | Alias g => (Return (global_val g w), w)
           end.

(** In-place mutation through a handle: an alias changes the global. *)
Definition store (h : handle) (v : json) : M handle :=
  fun w => match h with
           | Local _ => (Return (Local v), w)
           | Alias g => (Return (Alias g), set_global g v w)
           end.

(* ================================================================== *)
(** ** Helper functions and endpoints *)
(* ================================================================== *)

Section Service.

(** The environment of the process: the UTC clock read by [now_iso] (the
    n-th reading of a run), the configured webhook URL, and whether the
    HTTP client raises when a given payload is posted.  The import of the
    HTTP client itself is taken to succeed. *)
Variable clock : nat -> string.
Variable NOTIFICATION_WEBHOOK : string.
Variable post_raises : json -> bool.

(** [load_json(path, default)]: the parsed file, or the [default] object
    itself when the file is absent or [json.load] raises. *)
Definition load_json (p : path) (default : global) : M handle :=
  fun w => match read_file p w with
           | Parsed v => (Return (Local v), w)
           | Missing | Unparsable => (Return (Alias default), w)
           end.

(** [save_json(path, data)]: dump to the temporary file, rename over the
    target. *)
Definition save_json (p : path) (data : handle) : M unit :=
  v <- deref data ;;
  fun w => (Return tt, write_file p (Parsed v) w).

Definition now_iso : M string :=
  fun w => (Return (clock (ticks w)),
            mkWorld (state_file w) (backlog_file w) (accomplishments_file w)
                    (default_state w) (default_backlog w)
                    (default_accomplishments w) (S (ticks w)) (forwarded w)).

(** [h[k] = x] on the object behind a handle. *)
Definition setitem (h : handle) (k : string) (x : json) : M handle :=
  v <- deref h ;;
  v' <- lift (py_setitem v k x) ;;
  store h v'.

(** [h.get(k, dflt)] on the object behind a handle. *)
Definition getdefault (h : handle) (k : string) (dflt : json) : M json :=
  v <- deref h ;;
  lift (py_get v k dflt).

Definition read_state : M json :=
  state <- load_json STATE_PATH DEFAULT_STATE ;;
  c <- getdefault state "wake_count" (JInt 0) ;;
  c1 <- lift (py_add1 c) ;;
  state <- setitem state "wake_count" c1 ;;
  t <- now_iso ;;
  state <- setitem state "last_wake" (JStr t) ;;
  created <- getdefault state "created_at" JNull ;;
  state <- (if negb (truthy created)
            then t' <- now_iso ;; setitem state "created_at" (JStr t')
            else ret state) ;;
  save_json STATE_PATH state ;;;
  s <- deref state ;;
  ret (JDict [("success", JBool true); ("state", s)]).

Definition write_state (update_state : dict) : M json :=
  existing <- load_json STATE_PATH DEFAULT_STATE ;;
  let new_state := Local (JDict update_state) in
  v <- getdefault existing "version" (JStr "1.0") ;;
  new_state <- setitem new_state "version" v ;;
  v <- getdefault existing "wake_count" (JInt 0) ;;
  new_state <- setitem new_state "wake_count" v ;;
  v <- getdefault existing "created_at" JNull ;;
  new_state <- setitem new_state "created_at" v ;;
  v <- getdefault existing "last_wake" JNull ;;
  new_state <- setitem new_state "last_wake" v ;;
  save_json STATE_PATH new_state ;;;
  ret (JDict [("success", JBool true); ("message", JStr "State updated")]).

(** The sort key of [read_backlog]:
    [priority_order.get(t.get("priority", "normal"), 2)].  A list or a
    dictionary cannot be looked up in a [dict] (unhashable). *)
Definition priority_order (s : string) : option Z :=
  if String.eqb s "urgent" then Some 0
  else if String.eqb s "high" then Some 1
  else if String.eqb s "normal" then Some 2
  else if String.eqb s "low" then Some 3
  else None.

Definition priority_key (t : json) : outcome Z :=
  match py_get t "priority" (JStr "normal") with
  | Raise e => Raise e
  | Return (JStr s) =>
      Return (match priority_order s with Some k => k | None => 2 end)
  | Return (JList _) | Return (JDict _) => Raise TypeError
  | Return _ => Return 2
  end.

Fixpoint keyed (l : list json) : outcome (list (Z * json)) :=
  match l with
  | [] => Return []
  | t :: l' =>
      match priority_key t with
      | Raise e => Raise e
      | Return k =>
          match keyed l' with
          | Raise e => Raise e
          | Return kl => Return ((k, t) :: kl)
          end
      end
  end.

(** [list.sort(key=...)] is stable.  Here items are inserted from the right
    end of the list, each before the first later item whose key is not
    smaller, so items of equal key keep their order. *)
Fixpoint insert_keyed (x : Z * json) (l : list (Z * json)) : list (Z * json) :=
  match l with
  | [] => [x]
  | y :: l' => if fst x <=? fst y then x :: y :: l'
               else y :: insert_keyed x l'
  end.

Fixpoint sort_keyed (l : list (Z * json)) : list (Z * json) :=
  match l with
  | [] => []
  | x :: l' => insert_keyed x (sort_keyed l')
  end.

(** All keys are computed before any item moves; if one raises, the list
    is left as it was. *)
Definition sort_by_priority (l : list json) : outcome (list json) :=
  match keyed l with
  | Raise e => Raise e
  | Return kl => Return (map snd (sort_keyed kl))
  end.

(** [[t for t in tasks if t.get("status") == status_filter]]. *)
Fixpoint filter_status (status_filter : string) (l : list json)
  : outcome (list json) :=
  match l with
  | [] => Return []
  | t :: l' =>
      match py_get t "status" JNull with
      | Raise e => Raise e
      | Return s =>
          match filter_status status_filter l' with
          | Raise e => Raise e
          | Return r =>
              Return (if py_eq_str s status_filter then t :: r else r)
          end
      end
  end.

Definition backlog_response (tasks : list json) : json :=
  JDict [("success", JBool true);
         ("tasks", JList tasks);
         ("total", JInt (Z.of_nat (length tasks)))].

Definition read_backlog (status_filter : string) : M json :=
  backlog <- load_json BACKLOG_PATH DEFAULT_BACKLOG ;;
  b <- deref backlog ;;
  tasks <- lift (py_get b "tasks" (JList [])) ;;
  if negb (String.eqb status_filter "all") then
    (* the comprehension builds a new list; sorting it touches nothing else *)
    items <- lift (py_iter tasks) ;;
    kept <- lift (filter_status status_filter items) ;;
    sorted <- lift (sort_by_priority kept) ;;
    ret (backlog_response sorted)
  else
    (* [tasks] is the list inside the loaded document: sorted in place *)
    match tasks with
    | JList l =>
        sorted <- lift (sort_by_priority l) ;;
        (match py_getitem b "tasks" with
         | Return _ => setitem backlog "tasks" (JList sorted)
         | Raise _ => ret backlog
         end) ;;;
        ret (backlog_response sorted)
    | _ => raise AttributeError
    end.

(** The three lines that recur in [update_task], [log_accomplishment] and
    [send_notification]:
    [state = load_json(STATE_PATH, DEFAULT_STATE)],
    [state["metrics"][name] = state["metrics"].get(name, 0) + 1],
    [save_json(STATE_PATH, state)]. *)
Definition bump_metric (name : string) : M unit :=
  state <- load_json STATE_PATH DEFAULT_STATE ;;
  s <- deref state ;;
  m <- lift (py_getitem s "metrics") ;;
  c <- lift (py_get m name (JInt 0)) ;;
  c1 <- lift (py_add1 c) ;;
  m <- lift (py_getitem s "metrics") ;;
  m' <- lift (py_setitem m name c1) ;;
  state <- setitem state "metrics" m' ;;
  save_json STATE_PATH state.

(** The body of the [for task in ...] loop of [update_task]: the first
    task whose id matches is changed and the loop stops.  [None] when the
    loop ends without a match. *)
Fixpoint update_loop (task_id status : string) (notes : option string)
    (l : list json) : M (option (list json)) :=
  match l with
  | [] => ret None
  | task :: rest =>
      i <- lift (py_get task "id" JNull) ;;
      if py_eq_str i task_id then
        task <- lift (py_setitem task "status" (JStr status)) ;;
        t <- now_iso ;;
        task <- lift (py_setitem task "updated_at" (JStr t)) ;;
        task <- (match notes with
                 | Some n => if negb (String.eqb n "")
                             then lift (py_setitem task "notes" (JStr n))
                             else ret task
                 | None => ret task
                 end) ;;
        task <- (if String.eqb status "completed"
                 then t' <- now_iso ;;
                      lift (py_setitem task "completed_at" (JStr t'))
                 else ret task) ;;
        ret (Some (task :: rest))
      else
        r <- update_loop task_id status notes rest ;;
        ret (option_map (cons task) r)
  end.

Definition update_task (task_id status : string) (notes : option string)
  : M json :=
  backlog <- load_json BACKLOG_PATH DEFAULT_BACKLOG ;;
  tasks <- getdefault backlog "tasks" (JList []) ;;
  items <- lift (py_iter tasks) ;;
  r <- update_loop task_id status notes items ;;
  match r with
  | None =>
      raise (HTTPException 404 ("Task " ++ task_id ++ " not found"))
  | Some items' =>
      (* the matching task was changed in place, inside the loaded list *)
      backlog <- setitem backlog "tasks" (JList items') ;;
      save_json BACKLOG_PATH backlog ;;;
      (if String.eqb status "completed"
       then bump_metric "tasks_completed"
       else ret tt) ;;;
      ret (JDict [("success", JBool true);
                  ("message",
                    JStr ("Task " ++ task_id ++ " updated to " ++ status))])
  end.

Fixpoint existing_ids (l : list json) : outcome (list json) :=
  match l with
  | [] => Return []
  | t :: l' =>
      match py_get t "id" (JStr "") with
      | Raise e => Raise e
      | Return i =>
          match existing_ids l' with
          | Raise e => Raise e
          | Return r => Return (i :: r)
          end
      end
  end.

(** [v.append(x)]: only lists have [append]. *)
Definition py_append (v : json) (x : json) : outcome json :=
  match v with
  | JList l => Return (JList (l ++ [x]))
  | _ => Raise AttributeError
  end.

Definition add_task (title description priority : string) : M json :=
  backlog <- load_json BACKLOG_PATH DEFAULT_BACKLOG ;;
  tasks <- getdefault backlog "tasks" (JList []) ;;
  items <- lift (py_iter tasks) ;;
  ids <- lift (existing_ids items) ;;
  let task_num := (length ids + 1)%nat in
  let task_id := "task-" ++ format_03d task_num in
  t <- now_iso ;;
  let new_task := JDict [("id", JStr task_id);
                         ("title", JStr title);
                         ("description", JStr description);
                         ("priority", JStr priority);
                         ("status", JStr "pending");
                         ("created_at", JStr t)] in
  b <- deref backlog ;;
  backlog <- (match py_getitem b "tasks" with
              | Return _ => ret backlog
              | Raise _ => setitem backlog "tasks" (JList [])
              end) ;;
  b <- deref backlog ;;
  l <- lift (py_getitem b "tasks") ;;
  l' <- lift (py_append l new_task) ;;
  backlog <- setitem backlog "tasks" l' ;;
  save_json BACKLOG_PATH backlog ;;;
  ret (JDict [("success", JBool true);
              ("task_id", JStr task_id);
              ("message", JStr ("Task added: " ++ title))]).

Definition log_accomplishment (category description impact : string)
    (artifacts : list string) : M json :=
  accomplishments <- load_json ACCOMPLISHMENTS_PATH DEFAULT_ACCOMPLISHMENTS ;;
  t <- now_iso ;;
  let entry := JDict [("timestamp", JStr t);
                      ("category", JStr category);
                      ("description", JStr description);
                      ("impact", JStr impact);
                      ("artifacts", JList (map JStr artifacts))] in
  a <- deref accomplishments ;;
  accomplishments <- (match a with
                      | JDict d =>
                          match dict_get "accomplishments" d with
                          | Some _ => ret accomplishments
                          | None =>
                              setitem accomplishments "accomplishments"
                                      (JList [])
                          end
                      | _ => raise TypeError
                      end) ;;
  a <- deref accomplishments ;;
  l <- lift (py_getitem a "accomplishments") ;;
  l' <- lift (py_append l entry) ;;
  accomplishments <- setitem accomplishments "accomplishments" l' ;;
  save_json ACCOMPLISHMENTS_PATH accomplishments ;;;
  bump_metric "total_accomplishments" ;;;
  ret (JDict [("success", JBool true);
              ("message", JStr "Accomplishment logged")]).

Definition high_or_urgent (priority : string) : bool :=
  String.eqb priority "high" || String.eqb priority "urgent".

(** [client.post(NOTIFICATION_WEBHOOK, json=payload, timeout=10.0)]: the
    attempt is recorded, then the client may raise. *)
Definition post (payload : json) : M unit :=
  fun w => (if post_raises payload then Raise HTTPError else Return tt,
            mkWorld (state_file w) (backlog_file w) (accomplishments_file w)
                    (default_state w) (default_backlog w)
                    (default_accomplishments w) (ticks w)
                    (forwarded w ++ [payload])).

Definition send_notification (message priority channel : string) : M json :=
  bump_metric "notifications_sent" ;;;
  (if negb (String.eqb NOTIFICATION_WEBHOOK "") && high_or_urgent priority
   then try_except
          (t <- now_iso ;;
           post (JDict [("message", JStr message);
                        ("priority", JStr priority);
                        ("timestamp", JStr t)]))
          (fun _ => ret tt)
   else ret tt) ;;;
  ret (JDict [("success", JBool true);
              ("message", JStr "Notification sent")]).

(** The POST routes of the application. *)
Inductive request : Type :=
| ReadState
| WriteState (state : dict)
| ReadBacklog (status_filter : string)
| UpdateTask (task_id status : string) (notes : option string)
| AddTask (title description priority : string)
| LogAccomplishment (category description impact : string)
                    (artifacts : list string)
| SendNotification (message priority channel : string).

Definition serve (r : request) : M json :=
  match r with
  | ReadState => read_state
  | WriteState state => write_state state
  | ReadBacklog status_filter => read_backlog status_filter
  | UpdateTask task_id status notes => update_task task_id status notes
  | AddTask title description priority => add_task title description priority
  | LogAccomplishment category description impact artifacts =>
      log_accomplishment category description impact artifacts
  | SendNotification message priority channel =>
      send_notification message priority channel
  end.

(** [GET /health]. *)
Definition health_check : M json :=
  t <- now_iso ;;
  ret (JDict [("status", JStr "healthy"); ("timestamp", JStr t)]).

(** One [if not PATH.exists(): save_json(PATH, DEFAULT)] of the start-up
    block: a file that exists is left alone, readable or not. *)
Definition init_file (p : path) (default : global) : M unit :=
  fun w => match read_file p w with
           | Missing => save_json p (Alias default) w
           | Unparsable | Parsed _ => (Return tt, w)
           end.

(** The block under [if __name__ == "__main__"], up to [uvicorn.run]. *)
Definition main : M unit :=
  init_file STATE_PATH DEFAULT_STATE ;;;
  init_file BACKLOG_PATH DEFAULT_BACKLOG ;;;
  init_file ACCOMPLISHMENTS_PATH DEFAULT_ACCOMPLISHMENTS.

(** A run of the server: the requests in the order they are served,
    whatever each one answers. *)
Fixpoint serve_all (rs : list request) (w : world) : world :=
  match rs with
  | [] => w
  | r :: rs' => serve_all rs' (snd (serve r w))
  end.

End Service.

(* ================================================================== *)
(** ** Notions used to state the properties *)
(* ================================================================== *)

(** The document an endpoint works on after [load_json(p, g)]: the parsed
    file, or the current content of the global [g]. *)
Definition document (p : path) (g : global) (w : world) : json :=
  match read_file p w with
  | Parsed v => v
  | Missing | Unparsable => global_val g w
  end.

(** An integer counter read with [d.get(k, dflt)]. *)
Definition int_field (k : string) (dflt : Z) (d : dict) : option Z :=
  match dict_get k d with
  | Some (JInt z) => Some z
  | Some _ => None
  | None => Some dflt
  end.

(** A field of a task (or of any JSON value: only dictionaries have one). *)
Definition field (k : string) (v : json) : option json :=
  match v with
  | JDict d => dict_get k d
  | _ => None
  end.

Definition is_dict (v : json) : Prop :=
  match v with JDict _ => True | _ => False end.

(** The world after [n] successive calls of an endpoint. *)
Fixpoint after {A} (n : nat) (m : M A) (w : world) : world :=
  match n with
  | O => w
  | S n' => snd (m (after n' m w))
  end.

(** The value [read_state] leaves in [created_at] on its first call. *)
Definition first_created (clock : nat -> string) (d : dict) (w : world) : json :=
  match dict_get "created_at" d with
  | Some v => if truthy v then v else JStr (clock (S (ticks w)))
  | None => JStr (clock (S (ticks w)))
  end.

(** The world [n] clock readings later. *)
Definition tick (n : nat) (w : world) : world :=
  mkWorld (state_file w) (backlog_file w) (accomplishments_file w)
          (default_state w) (default_backlog w) (default_accomplishments w)
          (n + ticks w) (forwarded w).

(** The world after an endpoint has changed the document loaded by
    [load_json(p, g)] into [v] and saved it: the file holds [v], and so
    does the global [g] when the document was the global itself. *)
Definition persist (p : path) (g : global) (v : json) (w : world) : world :=
  write_file p (Parsed v)
    match read_file p w with
    | Parsed _ => w
    | Missing | Unparsable => set_global g v w
    end.

(** The task [add_task] builds. *)
Definition new_task (task_id title description priority created : string)
  : json :=
  JDict [("id", JStr task_id);
         ("title", JStr title);
         ("description", JStr description);
         ("priority", JStr priority);
         ("status", JStr "pending");
         ("created_at", JStr created)].

(** The decimal digit [k] as a character. *)
Definition digit (k : nat) : ascii := ascii_of_nat (48 + k).

(** [t.get("id") == task_id], the test of the loop of [update_task]. *)
Definition has_id (task_id : string) (t : json) : bool :=
  match field "id" t with
  | Some v => py_eq_str v task_id
  | None => false
  end.

(** The task [update_task] leaves behind: [t_upd] and [t_done] are the two
    clock readings of the call. *)
Definition touch (status : string) (notes : option string)
    (t_upd t_done : string) (t : dict) : dict :=
  let t1 := dict_set "updated_at" (JStr t_upd)
              (dict_set "status" (JStr status) t) in
  let t2 := match notes with
            | Some n => if negb (String.eqb n "")
                        then dict_set "notes" (JStr n) t1 else t1
            | None => t1
            end in
  if String.eqb status "completed"
  then dict_set "completed_at" (JStr t_done) t2
  else t2.

(** The number of clock readings of one [update_task] that finds its task. *)
Definition readings (status : string) : nat :=
  if String.eqb status "completed" then 2%nat else 1%nat.

Definition update_ack (task_id status : string) : json :=
  JDict [("success", JBool true);
         ("message", JStr ("Task " ++ task_id ++ " updated to " ++ status))].

(** The tasks in the backlog file. *)
Definition stored_tasks (w : world) : list json :=
  match backlog_file w with
  | Parsed (JDict d) =>
      match dict_get "tasks" d with
      | Some (JList l) => l
      | _ => []
      end
  | _ => []
  end.

(** A counter of the [metrics] dictionary in the state file. *)
Definition metric (name : string) (w : world) : option json :=
  match state_file w with
  | Parsed (JDict s) =>
      match dict_get "metrics" s with
      | Some (JDict m) => dict_get name m
      | _ => None
      end
  | _ => None
  end.

(** A computation that never writes the backlog file. *)
Definition keeps_backlog {A} (m : M A) : Prop :=
  forall w, backlog_file (snd (m w)) = backlog_file w.

(** A clock for concrete runs: the n-th reading, one millisecond apart. *)
Definition wall_clock (n : nat) : string :=
  "2026-01-01T00:00:00." ++ format_03d n ++ "+00:00".

(** A process started on an empty data directory. *)
Definition empty_start : world := fresh_process Missing Missing Missing.

(** The same process after one [add_task]. *)
Definition one_task : world :=
  snd (add_task wall_clock "t1" "d1" "high" empty_start).

(** ... after the task has been completed once, and twice. *)
Definition completed_once : world :=
  snd (update_task wall_clock "task-001" "completed" None one_task).

Definition completed_twice : world :=
  snd (update_task wall_clock "task-001" "completed" None completed_once).

(** The process of [one_task] after a second [add_task] and a first
    [update_task]: task-001 is in progress, task-002 is pending. *)
Definition two_tasks : world :=
  snd (update_task wall_clock "task-001" "in_progress" None
         (snd (add_task wall_clock "t2" "d2" "urgent" one_task))).

(** The process of [one_task] after its backlog file was lost or damaged
    outside the process. *)
Definition backlog_lost (f : file) : world :=
  write_file BACKLOG_PATH f one_task.

(** The process of [completed_once] after its state file was lost. *)
Definition state_lost : world :=
  write_file STATE_PATH Missing completed_once.

(** What [load_json(p, g)] gives its caller to read. *)
Definition loaded (p : path) (g : global) (w : world) : outcome json :=
  fst ((h <- load_json p g ;; deref h) w).

(** The module-level default [load_json] is given for each path. *)
Definition default_of (p : path) : global :=
  match p with
  | STATE_PATH => DEFAULT_STATE
  | BACKLOG_PATH => DEFAULT_BACKLOG
  | ACCOMPLISHMENTS_PATH => DEFAULT_ACCOMPLISHMENTS
  end.

Definition is_parsed (f : file) : Prop :=
  match f with Parsed _ => True | Missing | Unparsable => False end.

(** The files a request may write: its own document, and the state file
    when it bumps a metric. *)
Definition writes (r : request) (p : path) : bool :=
  match r, p with
  | ReadState, STATE_PATH => true
  | WriteState _, STATE_PATH => true
  | UpdateTask _ _ _, BACKLOG_PATH => true
  | UpdateTask _ status _, STATE_PATH => String.eqb status "completed"
  | AddTask _ _ _, BACKLOG_PATH => true
  | LogAccomplishment _ _ _ _, ACCOMPLISHMENTS_PATH => true
  | LogAccomplishment _ _ _ _, STATE_PATH => true
  | SendNotification _ _ _, STATE_PATH => true
  | _, _ => false
  end.

(** The requests that save one document and then bump a metric. *)
Definition two_step (r : request) : bool :=
  match r with
  | UpdateTask _ status _ => String.eqb status "completed"
  | LogAccomplishment _ _ _ _ => true
  | _ => false
  end.

(** The counter of [metrics] a request adds to, if any. *)
Definition counter_of (r : request) : option string :=
  match r with
  | UpdateTask _ status _ =>
      if String.eqb status "completed" then Some "tasks_completed" else None
  | LogAccomplishment _ _ _ _ => Some "total_accomplishments"
  | SendNotification _ _ _ => Some "notifications_sent"
  | _ => None
  end.

(** Every default whose file does not parse still holds its literal. *)
Definition pristine (w : world) : Prop :=
  forall p, is_parsed (read_file p w)
            \/ global_val (default_of p) w = literal (default_of p).

(** The tasks of a list carry the ids [add_task] gives by position. *)
Definition numbered (l : list json) : Prop :=
  forall i t, nth_error l i = Some t ->
              field "id" t = Some (JStr ("task-" ++ format_03d (S i))).

(** The backlog file parses to a dictionary whose tasks are numbered. *)
Definition well_numbered (w : world) : Prop :=
  exists d l, backlog_file w = Parsed (JDict d)
              /\ dict_get "tasks" d = Some (JList l)
              /\ numbered l.

(** The entry [log_accomplishment] builds. *)
Definition new_entry (timestamp category description impact : string)
    (artifacts : list string) : json :=
  JDict [("timestamp", JStr timestamp);
         ("category", JStr category);
         ("description", JStr description);
         ("impact", JStr impact);
         ("artifacts", JList (map JStr artifacts))].

Definition accomplishment_ack : json :=
  JDict [("success", JBool true); ("message", JStr "Accomplishment logged")].

(** The entries in the accomplishments file. *)
Definition stored_accomplishments (w : world) : list json :=
  match accomplishments_file w with
  | Parsed (JDict d) =>
      match dict_get "accomplishments" d with
      | Some (JList l) => l
      | _ => []
      end
  | _ => []
  end.

(** A key of the state file, read with a default. *)
Definition state_key (k : string) (dflt : json) (w : world) : option json :=
  match state_file w with
  | Parsed (JDict s) =>
      Some match dict_get k s with Some x => x | None => dflt end
  | _ => None
  end.

(** The request is a [read_state]. *)
Definition is_read_state (r : request) : bool :=
  match r with ReadState => true | _ => false end.

(** A process started through the start-up block on an empty data
    directory. *)
Definition started : world := snd (main empty_start).

(** The process of [empty_start] after one [read_state]. *)
Definition woken : world := snd (read_state wall_clock empty_start).

(** The process of [one_task] after a [write_state] whose document has no
    [metrics]. *)
Definition no_metrics : world :=
  snd (write_state [("current_focus", JStr "X")] one_task).

(** The process of [empty_start] after one [log_accomplishment]. *)
Definition one_entry : world :=
  snd (log_accomplishment wall_clock "code" "parser" "high" ["parser.py"]
         empty_start).

(** The process of [backlog_lost] after a second [add_task], whose file
    was lost as well: both tasks are in [DEFAULT_BACKLOG], the high one
    before the urgent one. *)
Definition twice_lost : world :=
  write_file BACKLOG_PATH Missing
    (snd (add_task wall_clock "t2" "d2" "urgent" (backlog_lost Missing))).

(** The server-owned keys of the state document. *)
Definition protected (k : string) : Prop :=
  k = "version" \/ k = "wake_count" \/ k = "created_at" \/ k = "last_wake".

(** The rank [read_backlog] sorts by: urgent 0, high 1, normal 2, low 3,
    and 2 for a task with any other priority or none. *)
Definition priority_rank (t : json) : Z :=
  match field "priority" t with
  | Some (JStr s) => match priority_order s with Some k => k | None => 2 end
  | _ => 2
  end.

(** A task [read_backlog] can sort: a dictionary whose priority, if any,
    is hashable. *)
Definition sortable (t : json) : bool :=
  match t with
  | JDict d => match dict_get "priority" d with
               | Some (JList _) | Some (JDict _) => false
               | _ => true
               end
  | _ => false
  end.

(** The tasks [read_backlog] keeps for a status filter. *)
Definition selected (status_filter : string) (t : json) : bool :=
  String.eqb status_filter "all"
  || match field "status" t with
     | Some v => py_eq_str v status_filter
     | None => false
     end.

Definition key_le (a b : Z * json) : Prop := fst a <= fst b.

Definition rank_le (a b : json) : Prop := priority_rank a <= priority_rank b.

Definition has_rank (k : Z) (t : json) : bool := priority_rank t =? k.

(* ================================================================== *)
(** ** Dictionaries *)
(* ================================================================== *)

Lemma dict_get_set_same (k : string) (v : json) (d : dict) :
  dict_get k (dict_set k v d) = Some v.
Proof.
  induction d as [|[k' v'] d IH]; cbn.
  - now rewrite String.eqb_refl.
  - destruct (String.eqb k k') eqn:E; cbn; rewrite E; auto.
Qed.

Lemma dict_get_set_other (k k' : string) (v : json) (d : dict) :
  k <> k' -> dict_get k' (dict_set k v d) = dict_get k' d.
Proof.
  intros Hne. induction d as [|[k0 v0] d IH]; cbn.
  - destruct (String.eqb_spec k' k); congruence.
  - destruct (String.eqb_spec k k0) as [->|Hk]; cbn.
    + destruct (String.eqb_spec k' k0); congruence.
    + now rewrite IH.
Qed.

(** Normalises lookups through updates with literal or distinct keys. *)
Ltac dict_simpl :=
  repeat match goal with
    | |- context [dict_get ?k (dict_set ?k ?v ?d)] =>
        rewrite (dict_get_set_same k v d)
    | |- context [dict_get ?k' (dict_set ?k ?v ?d)] =>
        rewrite (dict_get_set_other k k' v d) by congruence
    end.

Lemma int_field_get (k : string) (dflt c : Z) (d : dict) :
  int_field k dflt d = Some c ->
  match dict_get k d with Some x => x | None => JInt dflt end = JInt c.
Proof.
  unfold int_field.
  destruct (dict_get k d) as [[]|]; congruence.
Qed.

(* ================================================================== *)
(** ** read_state *)
(* ================================================================== *)

Section ReadState.

Variable clock : nat -> string.

(** One call of [read_state] on a state document [d] whose [wake_count] is
    the integer [c] (or absent, with [c = 0]). *)
Lemma read_state_step (w : world) (d : dict) (c : Z) :
  document STATE_PATH DEFAULT_STATE w = JDict d ->
  int_field "wake_count" 0 d = Some c ->
  exists d',
    fst (read_state clock w)
      = Return (JDict [("success", JBool true); ("state", JDict d')])
    /\ state_file (snd (read_state clock w)) = Parsed (JDict d')
    /\ dict_get "wake_count" d' = Some (JInt (c + 1))
    /\ dict_get "last_wake" d' = Some (JStr (clock (ticks w)))
    /\ dict_get "created_at" d' = Some (first_created clock d w)
    /\ (forall k, k <> "wake_count" -> k <> "last_wake" ->
                  k <> "created_at" -> dict_get k d' = dict_get k d).
Proof.
  intros Hdoc Hc. apply int_field_get in Hc.
  unfold first_created.
  set (d1 := dict_set "last_wake" (JStr (clock (ticks w)))
               (dict_set "wake_count" (JInt (c + 1)) d)).
  assert (Hca : dict_get "created_at" d1 = dict_get "created_at" d).
  { unfold d1. rewrite !dict_get_set_other by discriminate. reflexivity. }
  assert (Hw1 : dict_get "wake_count" d1 = Some (JInt (c + 1))).
  { unfold d1. rewrite dict_get_set_other by discriminate.
    apply dict_get_set_same. }
  assert (Hl1 : dict_get "last_wake" d1 = Some (JStr (clock (ticks w)))).
  { unfold d1. apply dict_get_set_same. }
  assert (Hrun :
    let d' := if match dict_get "created_at" d with
                 | Some v => truthy v | None => false end
              then d1
              else dict_set "created_at" (JStr (clock (S (ticks w)))) d1 in
    fst (read_state clock w)
      = Return (JDict [("success", JBool true); ("state", JDict d')])
    /\ state_file (snd (read_state clock w)) = Parsed (JDict d')).
  { unfold document in Hdoc. unfold read_state, bind, load_json, getdefault.
    cbn in Hdoc |- *.
    destruct (state_file w) as [| |v] eqn:Hf; cbn in Hdoc |- *;
      rewrite Hdoc; cbn; rewrite Hc; cbn;
      fold d1; rewrite Hca;
      destruct (dict_get "created_at" d) as [v0|]; cbn;
      try destruct (truthy v0); cbn; auto. }
  cbn zeta in Hrun. destruct Hrun as [Hr Hs].
  destruct (dict_get "created_at" d) as [v0|] eqn:Hold;
    [destruct (truthy v0) eqn:Ht|]; eexists; (split; [exact Hr|]);
    (split; [exact Hs|]).
  - repeat split; auto. intros k H1 H2 H3. unfold d1.
    now rewrite !dict_get_set_other by congruence.
  - rewrite !dict_get_set_other by discriminate.
    rewrite dict_get_set_same. repeat split; auto.
    intros k H1 H2 H3. unfold d1.
    now rewrite !dict_get_set_other by congruence.
  - rewrite !dict_get_set_other by discriminate.
    rewrite dict_get_set_same. repeat split; auto.
    intros k H1 H2 H3. unfold d1.
    now rewrite !dict_get_set_other by congruence.
Qed.

Lemma first_created_truthy (d : dict) (w : world) :
  (forall t, clock t <> "") -> truthy (first_created clock d w) = true.
Proof.
  intros Hclock. unfold first_created.
  assert (Hnow : truthy (JStr (clock (S (ticks w)))) = true).
  { cbn. destruct (String.eqb_spec (clock (S (ticks w))) ""); auto.
    now apply Hclock in e. }
  destruct (dict_get "created_at" d) as [v|]; auto.
  destruct (truthy v) eqn:Hv; auto.
Qed.

(** C1. In any run of successive [read_state] calls on a state document
    whose [wake_count] is an integer [c] (or absent, read as 0), the call
    number [n + 1] succeeds, persists and returns a document whose
    [wake_count] is [c + n + 1] and whose [last_wake] is the clock reading
    of that call; [created_at] is the same in every call of the run: the
    value found before the first call if it was truthy, the clock reading
    of the first call otherwise.  No other key changes. *)
Theorem read_state_sequence (w : world) (d : dict) (c : Z) (n : nat) :
  (forall t, clock t <> "") ->
  document STATE_PATH DEFAULT_STATE w = JDict d ->
  int_field "wake_count" 0 d = Some c ->
  let w_n := after n (read_state clock) w in
  exists d',
    fst (read_state clock w_n)
      = Return (JDict [("success", JBool true); ("state", JDict d')])
    /\ state_file (snd (read_state clock w_n)) = Parsed (JDict d')
    /\ dict_get "wake_count" d' = Some (JInt (c + Z.of_nat n + 1))
    /\ dict_get "last_wake" d' = Some (JStr (clock (ticks w_n)))
    /\ dict_get "created_at" d' = Some (first_created clock d w)
    /\ (forall k, k <> "wake_count" -> k <> "last_wake" ->
                  k <> "created_at" -> dict_get k d' = dict_get k d).
Proof.
  intros Hclock Hdoc Hc. cbn zeta.
  induction n as [|n IH].
  - cbn [after]. replace (c + Z.of_nat 0 + 1) with (c + 1) by lia.
    now apply read_state_step.
  - destruct IH as (d1 & _ & Hfile & Hwc & _ & Hca & Hother).
    cbn [after]. set (w1 := snd (read_state clock (after n (read_state clock) w))) in *.
    assert (Hdoc1 : document STATE_PATH DEFAULT_STATE w1 = JDict d1).
    { unfold document. cbn. now rewrite Hfile. }
    assert (Hc1 : int_field "wake_count" 0 d1 = Some (c + Z.of_nat n + 1)).
    { unfold int_field. now rewrite Hwc. }
    destruct (read_state_step w1 d1 _ Hdoc1 Hc1)
      as (d2 & Hr & Hs & Hw2 & Hl2 & Hc2 & Ho2).
    exists d2. repeat split; auto.
    + rewrite Hw2. do 2 f_equal. lia.
    + rewrite Hc2. unfold first_created at 1. rewrite Hca.
      now rewrite first_created_truthy.
    + intros k H1 H2 H3. rewrite Ho2 by auto. now apply Hother.
Qed.

End ReadState.

(* ================================================================== *)
(** ** write_state *)
(* ================================================================== *)

Section WriteState.

Variable clock : nat -> string.

(** The document [write_state] persists: the caller's, with the four
    server-owned keys taken from the existing one. *)
Lemma write_state_run (w : world) (e u : dict) :
  document STATE_PATH DEFAULT_STATE w = JDict e ->
  write_state u w
  = (Return (JDict [("success", JBool true);
                    ("message", JStr "State updated")]),
     write_file STATE_PATH
       (Parsed (JDict
          (dict_set "last_wake"
             match dict_get "last_wake" e with Some x => x | None => JNull end
          (dict_set "created_at"
             match dict_get "created_at" e with Some x => x | None => JNull end
          (dict_set "wake_count"
             match dict_get "wake_count" e with Some x => x | None => JInt 0 end
          (dict_set "version"
             match dict_get "version" e with Some x => x | None => JStr "1.0" end
             u)))))) w).
Proof.
  intros Hdoc. unfold document in Hdoc.
  unfold write_state, bind, load_json, getdefault. cbn in Hdoc |- *.
  destruct (state_file w) as [| |v]; cbn in Hdoc |- *; rewrite Hdoc; cbn;
    reflexivity.
Qed.

(** C2. [write_state] persists the caller's document with [version],
    [wake_count], [created_at] and [last_wake] replaced by the values of
    the existing state document (or their defaults where it has none);
    every other key, present or absent, is exactly as the caller sent it,
    and nothing else in the world changes.  A [read_state] right after
    returns the caller's [current_focus] and a [wake_count] that is the
    existing counter plus one, whatever [wake_count] the caller sent. *)
Theorem write_state_protected (w : world) (e u : dict) :
  document STATE_PATH DEFAULT_STATE w = JDict e ->
  exists u',
    write_state u w
    = (Return (JDict [("success", JBool true);
                      ("message", JStr "State updated")]),
       write_file STATE_PATH (Parsed (JDict u')) w)
    /\ dict_get "version" u'
       = Some match dict_get "version" e with
              | Some x => x | None => JStr "1.0" end
    /\ dict_get "wake_count" u'
       = Some match dict_get "wake_count" e with
              | Some x => x | None => JInt 0 end
    /\ dict_get "created_at" u'
       = Some match dict_get "created_at" e with
              | Some x => x | None => JNull end
    /\ dict_get "last_wake" u'
       = Some match dict_get "last_wake" e with
              | Some x => x | None => JNull end
    /\ (forall k, ~ protected k -> dict_get k u' = dict_get k u)
    /\ (forall x c,
          dict_get "current_focus" u = Some x ->
          int_field "wake_count" 0 e = Some c ->
          exists s,
            fst (read_state clock (snd (write_state u w)))
            = Return (JDict [("success", JBool true); ("state", JDict s)])
            /\ dict_get "current_focus" s = Some x
            /\ dict_get "wake_count" s = Some (JInt (c + 1))).
Proof.
  intros Hdoc. eexists. split; [apply (write_state_run w e u Hdoc)|].
  rewrite (write_state_run w e u Hdoc).
  set (u' := dict_set "last_wake" _ _).
  assert (Hv : dict_get "version" u'
               = Some match dict_get "version" e with
                      | Some x => x | None => JStr "1.0" end).
  { unfold u'. rewrite !dict_get_set_other by discriminate.
    apply dict_get_set_same. }
  assert (Hw : dict_get "wake_count" u'
               = Some match dict_get "wake_count" e with
                      | Some x => x | None => JInt 0 end).
  { unfold u'. rewrite !dict_get_set_other by discriminate.
    apply dict_get_set_same. }
  assert (Hc : dict_get "created_at" u'
               = Some match dict_get "created_at" e with
                      | Some x => x | None => JNull end).
  { unfold u'. rewrite !dict_get_set_other by discriminate.
    apply dict_get_set_same. }
  assert (Hl : dict_get "last_wake" u'
               = Some match dict_get "last_wake" e with
                      | Some x => x | None => JNull end).
  { unfold u'. apply dict_get_set_same. }
  assert (Ho : forall k, ~ protected k -> dict_get k u' = dict_get k u).
  { intros k Hk. unfold u'. unfold protected in Hk.
    rewrite !dict_get_set_other; auto; intros <-; tauto. }
  repeat (split; [assumption|]).
  intros x c Hx Hcnt. cbn [snd].
  set (w' := write_file STATE_PATH (Parsed (JDict u')) w).
  assert (Hdoc' : document STATE_PATH DEFAULT_STATE w' = JDict u')
    by reflexivity.
  assert (Hcnt' : int_field "wake_count" 0 u' = Some c).
  { unfold int_field. rewrite Hw.
    now rewrite (int_field_get _ _ _ _ Hcnt). }
  destruct (read_state_step clock w' u' c Hdoc' Hcnt')
    as (s & Hr & _ & Hwc & _ & _ & Hoth).
  exists s. repeat split; auto.
  rewrite Hoth by discriminate. rewrite Ho; auto.
  unfold protected. intros [H|[H|[H|H]]]; discriminate.
Qed.

End WriteState.

(* ================================================================== *)
(** ** The stable sort of read_backlog *)
(* ================================================================== *)

Lemma insert_keyed_perm (x : Z * json) (l : list (Z * json)) :
  Permutation (insert_keyed x l) (x :: l).
Proof.
  induction l as [|y l IH]; cbn; auto.
  destruct (fst x <=? fst y); auto.
  rewrite IH. apply perm_swap.
Qed.

Lemma sort_keyed_perm (l : list (Z * json)) : Permutation (sort_keyed l) l.
Proof.
  induction l as [|x l IH]; cbn; auto.
  rewrite insert_keyed_perm. now constructor.
Qed.

Lemma insert_keyed_sorted (x : Z * json) (l : list (Z * json)) :
  StronglySorted key_le l -> StronglySorted key_le (insert_keyed x l).
Proof.
  induction 1 as [|y l Hs IH Hy]; cbn.
  - repeat constructor.
  - destruct (Z.leb_spec (fst x) (fst y)) as [Hle|Hgt].
    + constructor; [now constructor|].
      constructor; [exact Hle|].
      eapply Forall_impl; [|exact Hy]. unfold key_le. intros; lia.
    + constructor; [exact IH|].
      eapply Permutation_Forall; [symmetry; apply insert_keyed_perm|].
      constructor; [unfold key_le; lia|exact Hy].
Qed.

Lemma sort_keyed_sorted (l : list (Z * json)) :
  StronglySorted key_le (sort_keyed l).
Proof.
  induction l as [|x l IH]; cbn; [constructor|].
  now apply insert_keyed_sorted.
Qed.

Lemma insert_keyed_stable (k : Z) (x : Z * json) (l : list (Z * json)) :
  filter (fun p => fst p =? k) (insert_keyed x l)
  = filter (fun p => fst p =? k) (x :: l).
Proof.
  induction l as [|y l IH]; [reflexivity|].
  cbn [insert_keyed]. destruct (Z.leb_spec (fst x) (fst y)) as [Hle|Hgt];
    [reflexivity|].
  cbn [filter] in IH |- *. rewrite IH.
  destruct (Z.eqb_spec (fst y) k) as [Hy|Hy];
    destruct (Z.eqb_spec (fst x) k) as [Hx|Hx]; try reflexivity; lia.
Qed.

Lemma sort_keyed_stable (k : Z) (l : list (Z * json)) :
  filter (fun p => fst p =? k) (sort_keyed l)
  = filter (fun p => fst p =? k) l.
Proof.
  induction l as [|x l IH]; [reflexivity|].
  cbn [sort_keyed]. rewrite insert_keyed_stable. cbn [filter].
  now rewrite IH.
Qed.

Lemma priority_key_rank (t : json) :
  sortable t = true -> priority_key t = Return (priority_rank t).
Proof.
  destruct t; cbn; try discriminate.
  unfold priority_key, priority_rank. cbn.
  destruct (dict_get "priority" d) as [[]|]; try discriminate; reflexivity.
Qed.

Lemma keyed_ranks (l : list json) :
  Forall (fun t => sortable t = true) l ->
  keyed l = Return (map (fun t => (priority_rank t, t)) l).
Proof.
  induction 1 as [|t l Ht _ IH]; cbn; [reflexivity|].
  now rewrite (priority_key_rank t Ht), IH.
Qed.

Lemma sorted_map_snd (m : list (Z * json)) :
  Forall (fun p => fst p = priority_rank (snd p)) m ->
  StronglySorted key_le m -> StronglySorted rank_le (map snd m).
Proof.
  intros Hm Hsorted.
  induction Hsorted as [|p m Hs IH Hp]; cbn; constructor.
  - apply IH. now inversion Hm.
  - inversion Hm as [|? ? Hp0 Hm0]; subst.
    apply Forall_forall. intros t Ht. apply in_map_iff in Ht.
    destruct Ht as (q & <- & Hq).
    rewrite Forall_forall in Hp, Hm0.
    specialize (Hp q Hq). specialize (Hm0 q Hq).
    unfold rank_le, key_le in *. now rewrite <- Hp0, <- Hm0.
Qed.

(** [sort_by_priority] on sortable tasks: a stable sort by rank. *)
Lemma sort_by_priority_spec (l : list json) :
  Forall (fun t => sortable t = true) l ->
  exists r,
    sort_by_priority l = Return r
    /\ Permutation r l
    /\ StronglySorted rank_le r
    /\ (forall k, filter (has_rank k) r = filter (has_rank k) l).
Proof.
  intros Hl. unfold sort_by_priority. rewrite (keyed_ranks l Hl).
  set (kl := map (fun t => (priority_rank t, t)) l).
  assert (Hkl : Forall (fun p => fst p = priority_rank (snd p)) kl).
  { unfold kl. apply Forall_forall. intros p Hp.
    apply in_map_iff in Hp. destruct Hp as (t & <- & _). reflexivity. }
  assert (Hs : Forall (fun p => fst p = priority_rank (snd p)) (sort_keyed kl)).
  { eapply Permutation_Forall; [symmetry; apply sort_keyed_perm|exact Hkl]. }
  assert (Hsnd : map snd kl = l).
  { unfold kl. rewrite map_map. cbn. apply map_id. }
  assert (Hfilter : forall k (m : list (Z * json)),
             Forall (fun p => fst p = priority_rank (snd p)) m ->
             filter (has_rank k) (map snd m)
             = map snd (filter (fun p => fst p =? k) m)).
  { intros k m. induction 1 as [|p m Hp _ IH]; [reflexivity|].
    cbn. unfold has_rank at 1. rewrite <- Hp.
    destruct (fst p =? k); cbn; now rewrite IH. }
  eexists. split; [reflexivity|]. split; [|split].
  - apply Permutation_trans with (map snd kl);
      [apply Permutation_map, sort_keyed_perm|now rewrite Hsnd].
  - apply sorted_map_snd; [exact Hs|apply sort_keyed_sorted].
  - intros k. rewrite (Hfilter k _ Hs), sort_keyed_stable.
    rewrite <- (Hfilter k _ Hkl). now rewrite Hsnd.
Qed.

(* ================================================================== *)
(** ** add_task *)
(* ================================================================== *)

Lemma dict_set_set (k : string) (v1 v2 : json) (d : dict) :
  dict_set k v2 (dict_set k v1 d) = dict_set k v2 d.
Proof.
  induction d as [|[k' v'] d IH]; cbn.
  - now rewrite String.eqb_refl.
  - destruct (String.eqb k k') eqn:E; cbn; rewrite E; [reflexivity|].
    now rewrite IH.
Qed.

Lemma existing_ids_length (l : list json) :
  Forall is_dict l ->
  exists ids, existing_ids l = Return ids /\ length ids = length l.
Proof.
  induction 1 as [|t l Ht _ (ids & Hids & Hlen)]; cbn.
  - now exists [].
  - destruct t; try contradiction. cbn. rewrite Hids.
    eexists. split; [reflexivity|]. cbn. now rewrite Hlen.
Qed.

Lemma to_uint_nonnil (m : nat) : Nat.to_uint m <> Decimal.Nil.
Proof.
  rewrite <- (Unsigned.of_to m), Unsigned.to_of. apply unorm_nonnil.
Qed.

(** [format_03d m] reads back as [m] and has at least three characters. *)
Lemma format_03d_value (m : nat) :
  (3 <= String.length (format_03d m))%nat
  /\ exists u, NilZero.uint_of_string (format_03d m) = Some u
               /\ Nat.of_uint u = m.
Proof.
  unfold format_03d.
  pose proof (NilZero.usu _ (to_uint_nonnil m)) as Hu.
  set (s := NilZero.string_of_uint (Nat.to_uint m)) in *.
  destruct s as [|a [|b [|c s']]] eqn:Hs; cbn [String.length].
  - discriminate.
  - split; [cbn; lia|]. exists (Decimal.D0 (Decimal.D0 (Nat.to_uint m))).
    split; [|apply (Unsigned.of_to m)].
    cbn in Hu |- *. now rewrite Hu.
  - split; [cbn; lia|]. exists (Decimal.D0 (Nat.to_uint m)).
    split; [|apply (Unsigned.of_to m)].
    cbn in Hu |- *. now rewrite Hu.
  - split; [cbn; lia|]. exists (Nat.to_uint m).
    split; [exact Hu|apply Unsigned.of_to].
Qed.

(** Below 1000 the result is exactly the three digits of [m]. *)
Lemma format_03d_digits (m : nat) :
  (m < 1000)%nat ->
  format_03d m
  = String (digit (m / 100))
      (String (digit (m / 10 mod 10)) (String (digit (m mod 10)) "")).
Proof.
  intros Hm.
  assert (Hall : forallb (fun m =>
            String.eqb (format_03d m)
              (String (digit (m / 100))
                 (String (digit (m / 10 mod 10))
                    (String (digit (m mod 10)) ""))))
            (seq 0 1000) = true) by (vm_compute; reflexivity).
  rewrite forallb_forall in Hall.
  apply String.eqb_eq, Hall, in_seq. lia.
Qed.

Section AddTask.

Variable clock : nat -> string.

(** One successful run of [add_task]. *)
Lemma add_task_run (w : world) (d : dict) (l : list json)
    (title description priority : string) :
  document BACKLOG_PATH DEFAULT_BACKLOG w = JDict d ->
  match dict_get "tasks" d with Some v => v | None => JList [] end = JList l ->
  Forall is_dict l ->
  let task_id := "task-" ++ format_03d (length l + 1) in
  add_task clock title description priority w
  = (Return (JDict [("success", JBool true);
                    ("task_id", JStr task_id);
                    ("message", JStr ("Task added: " ++ title))]),
     persist BACKLOG_PATH DEFAULT_BACKLOG
       (JDict (dict_set "tasks"
                 (JList (l ++ [new_task task_id title description priority
                                        (clock (ticks w))]))
                 d))
       (tick 1 w)).
Proof.
  intros Hdoc Htasks Hl. cbn zeta.
  destruct (existing_ids_length l Hl) as (ids & Hids & Hlen).
  unfold document in Hdoc.
  unfold add_task, bind, load_json, getdefault, persist, tick, new_task.
  cbn in Hdoc |- *.
  destruct (backlog_file w) as [| |v]; cbn in Hdoc |- *; rewrite Hdoc; cbn;
    rewrite Htasks; cbn; rewrite Hids; cbn; rewrite Hlen;
    (destruct (dict_get "tasks" d) as [v0|] eqn:Hget; cbn;
     [ subst v0; rewrite Hget; cbn; reflexivity
     | injection Htasks as <-; rewrite dict_get_set_same; cbn;
       rewrite dict_set_set; reflexivity ]).
Qed.

(** C7. On a backlog document holding [n] tasks (dictionaries), [add_task]
    succeeds and returns the id ["task-"] followed by [n + 1] in decimal,
    zero-filled to at least three characters (exactly the three digits of
    [n + 1] below 1000); the persisted document is the loaded one with the
    new task, of status pending and created at the clock reading of the
    call, appended after the [n] existing tasks, which are unchanged, as
    is every other key. *)
Theorem add_task_appends (w : world) (d : dict) (l : list json)
    (title description priority : string) :
  document BACKLOG_PATH DEFAULT_BACKLOG w = JDict d ->
  match dict_get "tasks" d with Some v => v | None => JList [] end = JList l ->
  Forall is_dict l ->
  let n := length l in
  let task_id := "task-" ++ format_03d (n + 1) in
  let task := JDict [("id", JStr task_id);
                     ("title", JStr title);
                     ("description", JStr description);
                     ("priority", JStr priority);
                     ("status", JStr "pending");
                     ("created_at", JStr (clock (ticks w)))] in
  exists d',
    fst (add_task clock title description priority w)
    = Return (JDict [("success", JBool true);
                     ("task_id", JStr task_id);
                     ("message", JStr ("Task added: " ++ title))])
    /\ backlog_file (snd (add_task clock title description priority w))
       = Parsed (JDict d')
    /\ dict_get "tasks" d' = Some (JList (l ++ [task]))
    /\ (forall k, k <> "tasks" -> dict_get k d' = dict_get k d)
    /\ (3 <= String.length (format_03d (n + 1)))%nat
    /\ (exists u, NilZero.uint_of_string (format_03d (n + 1)) = Some u
                  /\ Nat.of_uint u = (n + 1)%nat)
    /\ ((n + 1 < 1000)%nat ->
        format_03d (n + 1)
        = String (digit ((n + 1) / 100))
            (String (digit ((n + 1) / 10 mod 10))
               (String (digit ((n + 1) mod 10)) ""))).
Proof.
  intros Hdoc Htasks Hl. cbn zeta.
  rewrite (add_task_run w d l title description priority Hdoc Htasks Hl).
  cbn [fst snd]. eexists. split; [reflexivity|]. split; [reflexivity|].
  split; [apply dict_get_set_same|].
  split; [intros k Hk; apply dict_get_set_other; congruence|].
  split; [apply format_03d_value|].
  split; [apply format_03d_value|apply format_03d_digits].
Qed.

End AddTask.

(* ================================================================== *)
(** ** read_backlog *)
(* ================================================================== *)

Lemma sortable_is_dict (l : list json) :
  Forall (fun t => sortable t = true) l -> Forall is_dict l.
Proof.
  apply Forall_impl. intros [] H; cbn in *; auto; discriminate.
Qed.

Lemma filter_status_selected (f : string) (l : list json) :
  String.eqb f "all" = false ->
  Forall is_dict l ->
  filter_status f l = Return (filter (selected f) l).
Proof.
  intros Hf. induction 1 as [|t l Ht _ IH]; cbn; [reflexivity|].
  rewrite IH. destruct t; try contradiction. cbn.
  unfold selected. rewrite Hf. cbn.
  destruct (dict_get "status" d) as [v|]; reflexivity.
Qed.

Lemma filter_all (l : list json) : filter (selected "all") l = l.
Proof.
  induction l as [|t l IH]; cbn; [reflexivity|]. now rewrite IH.
Qed.

(** One run of [read_backlog] on a backlog of sortable tasks: the answer
    is the sorted selection, and no file is written. *)
Lemma read_backlog_run (w : world) (d : dict) (l : list json) (f : string) :
  document BACKLOG_PATH DEFAULT_BACKLOG w = JDict d ->
  match dict_get "tasks" d with Some v => v | None => JList [] end = JList l ->
  Forall (fun t => sortable t = true) l ->
  exists r,
    sort_by_priority (filter (selected f) l) = Return r
    /\ fst (read_backlog f w) = Return (backlog_response r)
    /\ state_file (snd (read_backlog f w)) = state_file w
    /\ backlog_file (snd (read_backlog f w)) = backlog_file w
    /\ accomplishments_file (snd (read_backlog f w)) = accomplishments_file w.
Proof.
  intros Hdoc Htasks Hl.
  assert (Hsel : Forall (fun t => sortable t = true) (filter (selected f) l)).
  { rewrite Forall_forall in *. intros t Ht. apply Hl.
    now apply filter_In in Ht. }
  destruct (sort_by_priority_spec _ Hsel) as (r & Hr & _).
  exists r. split; [exact Hr|].
  unfold document in Hdoc.
  unfold read_backlog, bind, load_json, setitem. cbn in Hdoc |- *.
  destruct (String.eqb f "all") eqn:Hf; cbn.
  - apply String.eqb_eq in Hf. subst f. rewrite filter_all in Hr.
    destruct (backlog_file w) as [| |v] eqn:Hfile; cbn in Hdoc |- *;
      rewrite Hdoc; cbn; rewrite Htasks; cbn; rewrite Hr; cbn;
      destruct (dict_get "tasks" d); cbn; rewrite ?Hdoc; cbn;
      rewrite ?Hfile; repeat split; congruence.
  - pose proof (filter_status_selected f l Hf (sortable_is_dict l Hl)) as Hfs.
    destruct (backlog_file w) as [| |v] eqn:Hfile; cbn in Hdoc |- *;
      rewrite Hdoc; cbn; rewrite Htasks; cbn; rewrite Hfs; cbn; rewrite Hr;
      cbn; rewrite ?Hfile; repeat split; congruence.
Qed.

(** [t.get("status") == status_filter]: the status is that very string. *)
Lemma py_eq_str_spec (v : json) (s : string) :
  py_eq_str v s = true <-> v = JStr s.
Proof.
  destruct v; cbn; try (split; [discriminate|congruence]).
  rewrite String.eqb_eq. split; congruence.
Qed.

(** The filter keeps a task when it is ["all"] or the task's status. *)
Lemma selected_spec (f : string) (t : json) :
  selected f t = true <-> f = "all" \/ field "status" t = Some (JStr f).
Proof.
  unfold selected. rewrite orb_true_iff, String.eqb_eq.
  destruct (field "status" t) as [v|].
  - rewrite py_eq_str_spec. split; intros [H|H]; auto; right; congruence.
  - split; intros [H|H]; auto; discriminate.
Qed.

Section ReadBacklog.

Variable clock : nat -> string.

(** C3. On a backlog document whose tasks are sortable, [read_backlog]
    returns, with their count, the tasks whose status equals the filter
    (all of them for ["all"]), as a permutation sorted by rank that keeps
    tasks of equal rank in their stored order; the ranks are urgent 0,
    high 1, normal 2, low 3, and 2 for any other or missing priority.  A
    task is in the answer exactly when it is stored and the filter is
    ["all"] or the string in its [status].  No file is written.  On an
    empty backlog, adding t1 with priority high, then t2 with priority
    urgent, then listing all, returns t2 before t1; so does listing the
    pending tasks, and listing the completed ones returns nothing. *)
Theorem read_backlog_sorted (w : world) (d : dict) (l : list json)
    (f : string) :
  document BACKLOG_PATH DEFAULT_BACKLOG w = JDict d ->
  match dict_get "tasks" d with Some v => v | None => JList [] end = JList l ->
  Forall (fun t => sortable t = true) l ->
  (exists r,
    fst (read_backlog f w)
    = Return (JDict [("success", JBool true);
                     ("tasks", JList r);
                     ("total", JInt (Z.of_nat (length r)))])
    /\ Permutation r (filter (selected f) l)
    /\ StronglySorted rank_le r
    /\ (forall k, filter (has_rank k) r
                  = filter (has_rank k) (filter (selected f) l))
    /\ (forall t, In t r <->
          In t l /\ (f = "all" \/ field "status" t = Some (JStr f))))
  /\ (forall g t, selected g t = true <->
        g = "all" \/ field "status" t = Some (JStr g))
  /\ state_file (snd (read_backlog f w)) = state_file w
  /\ backlog_file (snd (read_backlog f w)) = backlog_file w
  /\ accomplishments_file (snd (read_backlog f w)) = accomplishments_file w
  /\ (forall t s, field "priority" t = Some (JStr s) ->
        priority_rank t
        = if String.eqb s "urgent" then 0
          else if String.eqb s "high" then 1
          else if String.eqb s "low" then 3
          else 2)
  /\ (forall t, field "priority" t = None -> priority_rank t = 2)
  /\ (forall t v, field "priority" t = Some v ->
        (forall s, v <> JStr s) -> priority_rank t = 2)
  /\ (l = [] ->
      fst ((add_task clock "t1" "d1" "high" ;;;
            add_task clock "t2" "d2" "urgent" ;;;
            read_backlog "all") w)
      = Return (JDict [("success", JBool true);
                       ("tasks",
                         JList [new_task "task-002" "t2" "d2" "urgent"
                                         (clock (S (ticks w)));
                                new_task "task-001" "t1" "d1" "high"
                                         (clock (ticks w))]);
                       ("total", JInt 2)])
      /\ fst ((add_task clock "t1" "d1" "high" ;;;
               add_task clock "t2" "d2" "urgent" ;;;
               read_backlog "pending") w)
         = Return (JDict [("success", JBool true);
                          ("tasks",
                            JList [new_task "task-002" "t2" "d2" "urgent"
                                            (clock (S (ticks w)));
                                   new_task "task-001" "t1" "d1" "high"
                                            (clock (ticks w))]);
                          ("total", JInt 2)])
      /\ fst ((add_task clock "t1" "d1" "high" ;;;
               add_task clock "t2" "d2" "urgent" ;;;
               read_backlog "completed") w)
         = Return (JDict [("success", JBool true);
                          ("tasks", JList []);
                          ("total", JInt 0)])).
Proof.
  intros Hdoc Htasks Hl.
  destruct (read_backlog_run w d l f Hdoc Htasks Hl)
    as (r & Hsort & Hr & Hs & Hb & Ha).
  assert (Hsel : Forall (fun t => sortable t = true) (filter (selected f) l)).
  { rewrite Forall_forall in *. intros t Ht. apply Hl.
    now apply filter_In in Ht. }
  destruct (sort_by_priority_spec _ Hsel) as (r' & Hr' & Hperm & Hsorted & Hst).
  assert (r' = r) by congruence. subst r'.
  split.
  { exists r. repeat (split; [assumption|]).
    intros t. rewrite <- selected_spec, <- filter_In.
    split; apply Permutation_in; [exact Hperm|now symmetry]. }
  split; [exact selected_spec|].
  repeat (split; [assumption|]).
  split; [|split; [|split]].
  - intros t s Hp. unfold priority_rank. rewrite Hp. unfold priority_order.
    destruct (String.eqb s "urgent"); [reflexivity|].
    destruct (String.eqb s "high"); [reflexivity|].
    destruct (String.eqb_spec s "normal") as [->|_]; [reflexivity|].
    destruct (String.eqb s "low"); reflexivity.
  - intros t Hp. unfold priority_rank. now rewrite Hp.
  - intros t v Hp Hv. unfold priority_rank. rewrite Hp.
    destruct v; try reflexivity. now destruct (Hv s).
  - intros ->.
    set (t1 := new_task "task-001" "t1" "d1" "high" (clock (ticks w))).
    set (t2 := new_task "task-002" "t2" "d2" "urgent" (clock (S (ticks w)))).
    assert (Hrun : forall g, exists r2,
              sort_by_priority (filter (selected g) [t1; t2]) = Return r2
              /\ fst ((add_task clock "t1" "d1" "high" ;;;
                       add_task clock "t2" "d2" "urgent" ;;;
                       read_backlog g) w)
                 = Return (backlog_response r2));
      [|split; [|split];
        [destruct (Hrun "all") as (r2 & Hsort2 & ->)
        |destruct (Hrun "pending") as (r2 & Hsort2 & ->)
        |destruct (Hrun "completed") as (r2 & Hsort2 & ->)];
        cbn in Hsort2; injection Hsort2 as <-; reflexivity].
    intros g.
    unfold bind at 1.
    rewrite (add_task_run clock w d [] "t1" "d1" "high" Hdoc Htasks
               (Forall_nil _)).
    cbn [length Nat.add app]. change (format_03d 1) with "001".
    change ("task-" ++ "001") with "task-001". fold t1.
    set (d1 := dict_set "tasks" (JList [t1]) d).
    set (w1 := persist BACKLOG_PATH DEFAULT_BACKLOG (JDict d1) (tick 1 w)).
    assert (Hdoc1 : document BACKLOG_PATH DEFAULT_BACKLOG w1 = JDict d1)
      by reflexivity.
    assert (Ht1 : match dict_get "tasks" d1 with
                  | Some v => v | None => JList [] end = JList [t1]).
    { unfold d1. now rewrite dict_get_set_same. }
    assert (Hl1 : Forall is_dict [t1]) by (repeat constructor).
    unfold bind at 1.
    rewrite (add_task_run clock w1 d1 [t1] "t2" "d2" "urgent" Hdoc1 Ht1 Hl1).
    cbn [length Nat.add app]. change (format_03d 2) with "002".
    change ("task-" ++ "002") with "task-002".
    replace (ticks w1) with (S (ticks w))
      by (unfold w1, persist; destruct (read_file BACKLOG_PATH (tick 1 w));
          reflexivity).
    fold t2.
    set (d2 := dict_set "tasks" (JList [t1; t2]) d1).
    set (w2 := persist BACKLOG_PATH DEFAULT_BACKLOG (JDict d2) (tick 1 w1)).
    assert (Hdoc2 : document BACKLOG_PATH DEFAULT_BACKLOG w2 = JDict d2)
      by reflexivity.
    assert (Ht2 : match dict_get "tasks" d2 with
                  | Some v => v | None => JList [] end = JList [t1; t2]).
    { unfold d2. now rewrite dict_get_set_same. }
    assert (Hl2 : Forall (fun t => sortable t = true) [t1; t2])
      by (repeat constructor).
    destruct (read_backlog_run w2 d2 [t1; t2] g Hdoc2 Ht2 Hl2)
      as (r2 & Hsort2 & Hr2 & _).
    exists r2. split; [exact Hsort2|exact Hr2].
Qed.

End ReadBacklog.

(* ================================================================== *)
(** ** update_task *)
(* ================================================================== *)

Section UpdateTask.

Variable clock : nat -> string.

Lemma update_loop_miss (task_id status : string) (notes : option string)
    (l : list json) (w : world) :
  Forall is_dict l ->
  Forall (fun t => has_id task_id t = false) l ->
  update_loop clock task_id status notes l w = (Return None, w).
Proof.
  intros Hd. induction Hd as [|t l Ht _ IH]; intros Hid; [reflexivity|].
  inversion Hid as [|? ? Hno Hrest]; subst.
  destruct t; try contradiction.
  cbn [update_loop]. unfold bind, lift at 1. cbn [py_get].
  unfold has_id in Hno. cbn in Hno.
  destruct (dict_get "id" d) as [v|]; cbn.
  - rewrite Hno. unfold bind. now rewrite IH.
  - unfold bind. now rewrite IH.
Qed.

Lemma update_loop_hit (task_id status : string) (notes : option string)
    (l1 l2 : list json) (t : dict) (w : world) :
  Forall is_dict l1 ->
  Forall (fun x => has_id task_id x = false) l1 ->
  has_id task_id (JDict t) = true ->
  update_loop clock task_id status notes (l1 ++ JDict t :: l2)%list w
  = (Return (Some (l1 ++ JDict (touch status notes (clock (ticks w))
                                      (clock (S (ticks w))) t) :: l2)%list),
     tick (readings status) w).
Proof.
  intros Hd. induction Hd as [|x l1 Hx _ IH]; intros Hid Hhit.
  - cbn [app update_loop]. unfold bind, lift at 1. cbn [py_get].
    unfold has_id in Hhit. cbn in Hhit.
    destruct (dict_get "id" t) as [v|]; [|discriminate]. rewrite Hhit.
    unfold touch, readings, tick.
    destruct notes as [n|]; [destruct (String.eqb n "")|];
      destruct (String.eqb status "completed"); reflexivity.
  - inversion Hid as [|? ? Hno Hrest]; subst.
    destruct x; try contradiction.
    cbn [app update_loop]. unfold bind, lift at 1. cbn [py_get].
    unfold has_id in Hno. cbn in Hno.
    destruct (dict_get "id" d) as [v|]; cbn.
    + rewrite Hno. unfold bind. now rewrite IH.
    + unfold bind. now rewrite IH.
Qed.

(** C4. When no task of the backlog document has the given id,
    [update_task] raises the 404 [HTTPException] and leaves the whole
    world as it was: no file is written, so the backlog file and the
    metrics of the state file are unchanged. *)
Theorem update_task_not_found (w : world) (d : dict) (l : list json)
    (task_id status : string) (notes : option string) :
  document BACKLOG_PATH DEFAULT_BACKLOG w = JDict d ->
  match dict_get "tasks" d with Some v => v | None => JList [] end = JList l ->
  Forall is_dict l ->
  Forall (fun t => has_id task_id t = false) l ->
  update_task clock task_id status notes w
  = (Raise (HTTPException 404 ("Task " ++ task_id ++ " not found")), w).
Proof.
  intros Hdoc Htasks Hd Hid. unfold document in Hdoc.
  unfold update_task, bind, load_json, getdefault. cbn in Hdoc |- *.
  destruct (backlog_file w) as [| |v]; cbn in Hdoc |- *; rewrite Hdoc; cbn;
    rewrite Htasks; cbn; rewrite (update_loop_miss _ _ _ l _ Hd Hid);
    reflexivity.
Qed.

(** A run of [update_task] that finds its task: the backlog is saved with
    the task changed in place, then a completion bumps the metric. *)
Lemma update_task_hit (w : world) (d : dict) (l1 l2 : list json) (t : dict)
    (task_id status : string) (notes : option string) :
  document BACKLOG_PATH DEFAULT_BACKLOG w = JDict d ->
  dict_get "tasks" d = Some (JList (l1 ++ JDict t :: l2)) ->
  Forall is_dict l1 ->
  Forall (fun x => has_id task_id x = false) l1 ->
  has_id task_id (JDict t) = true ->
  update_task clock task_id status notes w
  = let t' := touch status notes (clock (ticks w)) (clock (S (ticks w))) t in
    let w1 := persist BACKLOG_PATH DEFAULT_BACKLOG
                (JDict (dict_set "tasks" (JList (l1 ++ JDict t' :: l2)) d))
                (tick (readings status) w) in
    if String.eqb status "completed"
    then match bump_metric "tasks_completed" w1 with
         | (Return _, w2) => (Return (update_ack task_id status), w2)
         | (Raise e, w2) => (Raise e, w2)
         end
    else (Return (update_ack task_id status), w1).
Proof.
  intros Hdoc Htasks Hd Hid Hhit. unfold document in Hdoc.
  unfold update_task, bind at 1 2 3, load_json, getdefault.
  cbn in Hdoc. cbn [read_file].
  destruct (backlog_file w) as [| |v] eqn:Hfile; cbn in Hdoc;
    unfold deref, bind at 1, lift at 1, bind at 1; cbn [global_val];
    rewrite Hdoc; cbn [py_get]; rewrite Htasks; unfold lift at 1;
    cbn [py_iter]; unfold bind at 1;
    rewrite (update_loop_hit _ _ _ l1 l2 t w Hd Hid Hhit);
    unfold setitem, persist, save_json, bind, deref, store, lift, ret;
    cbn; rewrite ?Hfile, ?Hdoc; cbn;
    destruct (String.eqb status "completed"); cbn; try reflexivity;
    match goal with |- context [bump_metric _ ?w0] =>
      destruct (bump_metric "tasks_completed" w0) as [[[]|e] w2] end;
    reflexivity.
Qed.

(** One run of the metric bump on a state document that has a [metrics]
    dictionary whose counter is an integer [c] (or absent, with [c = 0]). *)
Lemma bump_metric_run (w : world) (s m : dict) (c : Z) (name : string) :
  document STATE_PATH DEFAULT_STATE w = JDict s ->
  dict_get "metrics" s = Some (JDict m) ->
  int_field name 0 m = Some c ->
  bump_metric name w
  = (Return tt,
     persist STATE_PATH DEFAULT_STATE
       (JDict (dict_set "metrics" (JDict (dict_set name (JInt (c + 1)) m)) s))
       w).
Proof.
  intros Hdoc Hm Hc. apply int_field_get in Hc. unfold document in Hdoc.
  unfold bump_metric, bind, load_json, setitem, save_json, persist.
  cbn in Hdoc |- *.
  destruct (state_file w) as [| |v] eqn:Hfile; cbn in Hdoc |- *;
    rewrite Hdoc; cbn; rewrite Hm; cbn; rewrite Hc; cbn; rewrite ?Hdoc; cbn;
    reflexivity.
Qed.

(** Without a [metrics] key the bump raises [KeyError] and writes nothing:
    [write_state] can leave such a state document behind. *)
Lemma bump_metric_without_metrics (w : world) (s : dict) (name : string) :
  document STATE_PATH DEFAULT_STATE w = JDict s ->
  dict_get "metrics" s = None ->
  bump_metric name w = (Raise (KeyError "metrics"), w).
Proof.
  intros Hdoc Hm. unfold document in Hdoc.
  unfold bump_metric, bind, load_json. cbn in Hdoc |- *.
  destruct (state_file w) as [| |v]; cbn in Hdoc |- *; rewrite Hdoc; cbn;
    rewrite Hm; reflexivity.
Qed.

Lemma document_state_after_backlog (v : json) (n : nat) (w : world) :
  document STATE_PATH DEFAULT_STATE
    (persist BACKLOG_PATH DEFAULT_BACKLOG v (tick n w))
  = document STATE_PATH DEFAULT_STATE w.
Proof.
  unfold document, persist. cbn.
  destruct (backlog_file w); reflexivity.
Qed.

(** A completion that finds its task, on a state document with metrics. *)
Lemma update_task_completed_run (w : world) (d : dict) (l1 l2 : list json)
    (t : dict) (task_id : string) (notes : option string)
    (s m : dict) (c : Z) :
  document BACKLOG_PATH DEFAULT_BACKLOG w = JDict d ->
  dict_get "tasks" d = Some (JList (l1 ++ JDict t :: l2)) ->
  Forall is_dict l1 ->
  Forall (fun x => has_id task_id x = false) l1 ->
  has_id task_id (JDict t) = true ->
  document STATE_PATH DEFAULT_STATE w = JDict s ->
  dict_get "metrics" s = Some (JDict m) ->
  int_field "tasks_completed" 0 m = Some c ->
  update_task clock task_id "completed" notes w
  = (Return (update_ack task_id "completed"),
     persist STATE_PATH DEFAULT_STATE
       (JDict (dict_set "metrics"
                 (JDict (dict_set "tasks_completed" (JInt (c + 1)) m)) s))
       (persist BACKLOG_PATH DEFAULT_BACKLOG
          (JDict (dict_set "tasks"
                    (JList (l1 ++ JDict (touch "completed" notes
                                           (clock (ticks w))
                                           (clock (S (ticks w))) t) :: l2))
                    d))
          (tick 2 w))).
Proof.
  intros Hdoc Htasks Hd Hid Hhit Hstate Hm Hc.
  rewrite (update_task_hit w d l1 l2 t task_id "completed" notes
             Hdoc Htasks Hd Hid Hhit).
  cbn zeta. cbn [String.eqb Ascii.eqb Bool.eqb readings].
  change (readings "completed") with 2%nat.
  erewrite bump_metric_run; [reflexivity| |exact Hm|exact Hc].
  rewrite document_state_after_backlog. exact Hstate.
Qed.

Lemma touch_completed (notes : option string) (a b : string) (t : dict) :
  let t' := touch "completed" notes a b t in
  dict_get "status" t' = Some (JStr "completed")
  /\ dict_get "updated_at" t' = Some (JStr a)
  /\ dict_get "completed_at" t' = Some (JStr b)
  /\ dict_get "id" t' = dict_get "id" t.
Proof.
  unfold touch. cbn [String.eqb Ascii.eqb Bool.eqb].
  destruct notes as [n|]; [destruct (String.eqb n "")|]; cbn [negb];
    dict_simpl; auto.
Qed.

Lemma touch_other (status : string) (notes : option string) (a b : string)
    (t : dict) (k : string) :
  k <> "status" -> k <> "updated_at" -> k <> "notes" ->
  k <> "completed_at" ->
  dict_get k (touch status notes a b t) = dict_get k t.
Proof.
  intros H1 H2 H3 H4. unfold touch.
  destruct notes as [n|]; [destruct (String.eqb n "")|]; cbn [negb];
    destruct (String.eqb status "completed"); dict_simpl; reflexivity.
Qed.

Lemma has_id_touch (task_id status : string) (notes : option string)
    (a b : string) (t : dict) :
  has_id task_id (JDict (touch status notes a b t)) = has_id task_id (JDict t).
Proof.
  unfold has_id, field. now rewrite touch_other by discriminate.
Qed.

Lemma persist_read_same (p : path) (g : global) (v : json) (w : world) :
  read_file p (persist p g v w) = Parsed v.
Proof.
  unfold persist. destruct p; reflexivity.
Qed.

Lemma persist_read_other (p q : path) (g : global) (v : json) (w : world) :
  p <> q -> read_file q (persist p g v w) = read_file q w.
Proof.
  intros Hpq. unfold persist.
  destruct p, q; try congruence; cbn;
    match goal with |- context [match ?f with _ => _ end] => destruct f end;
    destruct g; reflexivity.
Qed.

Lemma document_parsed (p : path) (g : global) (v : json) (w : world) :
  read_file p w = Parsed v -> document p g w = v.
Proof.
  unfold document. now intros ->.
Qed.

Lemma persist_ticks (p : path) (g : global) (v : json) (w : world) :
  ticks (persist p g v w) = ticks w.
Proof.
  unfold persist. destruct p, g, (read_file _ w); reflexivity.
Qed.

(** C5. When the backlog document holds a task with the given id, and the
    state document has a [metrics] dictionary whose [tasks_completed] is an
    integer [c] (or absent, with [c = 0]), [update_task] with status
    completed succeeds; in the backlog file the first task with that id
    has status completed, [updated_at] and [completed_at] set to the two
    clock readings of the call, and its other keys (but [notes]) as
    before, the other tasks being untouched; the state file has
    [tasks_completed = c + 1].  The same call again succeeds again, leaves
    the task completed and makes [tasks_completed = c + 2]. *)
Theorem update_task_completed (w : world) (d : dict) (l1 l2 : list json)
    (t : dict) (task_id : string) (notes : option string)
    (s m : dict) (c : Z) :
  document BACKLOG_PATH DEFAULT_BACKLOG w = JDict d ->
  dict_get "tasks" d = Some (JList (l1 ++ JDict t :: l2)) ->
  Forall is_dict l1 ->
  Forall (fun x => has_id task_id x = false) l1 ->
  has_id task_id (JDict t) = true ->
  document STATE_PATH DEFAULT_STATE w = JDict s ->
  dict_get "metrics" s = Some (JDict m) ->
  int_field "tasks_completed" 0 m = Some c ->
  let ack := JDict [("success", JBool true);
                    ("message", JStr ("Task " ++ task_id
                                      ++ " updated to completed"))] in
  let w1 := snd (update_task clock task_id "completed" notes w) in
  let w2 := snd (update_task clock task_id "completed" notes w1) in
  exists t1 t2,
    fst (update_task clock task_id "completed" notes w) = Return ack
    /\ stored_tasks w1 = (l1 ++ JDict t1 :: l2)%list
    /\ dict_get "status" t1 = Some (JStr "completed")
    /\ dict_get "updated_at" t1 = Some (JStr (clock (ticks w)))
    /\ dict_get "completed_at" t1 = Some (JStr (clock (S (ticks w))))
    /\ (forall k, k <> "status" -> k <> "updated_at" -> k <> "notes" ->
                  k <> "completed_at" -> dict_get k t1 = dict_get k t)
    /\ metric "tasks_completed" w1 = Some (JInt (c + 1))
    /\ fst (update_task clock task_id "completed" notes w1) = Return ack
    /\ stored_tasks w2 = (l1 ++ JDict t2 :: l2)%list
    /\ dict_get "status" t2 = Some (JStr "completed")
    /\ metric "tasks_completed" w2 = Some (JInt (c + 2)).
Proof.
  intros Hdoc Htasks Hd Hid Hhit Hstate Hm Hc. cbn zeta.
  rewrite (update_task_completed_run w d l1 l2 t task_id notes s m c
             Hdoc Htasks Hd Hid Hhit Hstate Hm Hc).
  cbn [fst snd].
  set (t1 := touch "completed" notes (clock (ticks w)) (clock (S (ticks w))) t).
  set (d1 := dict_set "tasks" (JList (l1 ++ JDict t1 :: l2)) d).
  set (m1 := dict_set "tasks_completed" (JInt (c + 1)) m).
  set (s1 := dict_set "metrics" (JDict m1) s).
  set (w1 := persist STATE_PATH DEFAULT_STATE (JDict s1)
               (persist BACKLOG_PATH DEFAULT_BACKLOG (JDict d1) (tick 2 w))).
  assert (Hb1 : backlog_file w1 = Parsed (JDict d1)).
  { change (read_file BACKLOG_PATH w1 = Parsed (JDict d1)). unfold w1.
    rewrite persist_read_other by discriminate. apply persist_read_same. }
  assert (Hs1 : state_file w1 = Parsed (JDict s1)).
  { change (read_file STATE_PATH w1 = Parsed (JDict s1)).
    apply persist_read_same. }
  assert (Hdoc1 : document BACKLOG_PATH DEFAULT_BACKLOG w1 = JDict d1)
    by (apply document_parsed; exact Hb1).
  assert (Hstate1 : document STATE_PATH DEFAULT_STATE w1 = JDict s1)
    by (apply document_parsed; exact Hs1).
  assert (Htasks1 : dict_get "tasks" d1 = Some (JList (l1 ++ JDict t1 :: l2))).
  { unfold d1. apply dict_get_set_same. }
  assert (Hhit1 : has_id task_id (JDict t1) = true).
  { unfold t1. now rewrite has_id_touch. }
  assert (Hm1 : dict_get "metrics" s1 = Some (JDict m1)).
  { unfold s1. apply dict_get_set_same. }
  assert (Hc1 : int_field "tasks_completed" 0 m1 = Some (c + 1)).
  { unfold int_field, m1. now rewrite dict_get_set_same. }
  rewrite (update_task_completed_run w1 d1 l1 l2 t1 task_id notes s1 m1 _
             Hdoc1 Htasks1 Hd Hid Hhit1 Hstate1 Hm1 Hc1).
  cbn [fst snd].
  set (t2 := touch "completed" notes (clock (ticks w1))
               (clock (S (ticks w1))) t1).
  destruct (touch_completed notes (clock (ticks w)) (clock (S (ticks w))) t)
    as (Hst & Hup & Hco & _).
  destruct (touch_completed notes (clock (ticks w1)) (clock (S (ticks w1))) t1)
    as (Hst2 & _).
  exists t1, t2. split; [reflexivity|].
  split; [unfold stored_tasks; now rewrite Hb1, Htasks1|].
  repeat (split; [assumption|]).
  split; [intros k H1 H2 H3 H4; now apply touch_other|].
  split; [unfold metric; rewrite Hs1, Hm1; apply dict_get_set_same|].
  split; [reflexivity|].
  split; [|split; [exact Hst2|]].
  - unfold stored_tasks.
    change (backlog_file ?x) with (read_file BACKLOG_PATH x).
    rewrite persist_read_other by discriminate.
    rewrite persist_read_same. now rewrite dict_get_set_same.
  - unfold metric.
    change (state_file ?x) with (read_file STATE_PATH x).
    rewrite persist_read_same.
    rewrite dict_get_set_same, dict_get_set_same.
    do 2 f_equal. lia.
Qed.

End UpdateTask.

(* ================================================================== *)
(** ** Computations that leave the backlog file alone *)
(* ================================================================== *)

Create HintDb frame.

Lemma keeps_ret {A} (a : A) : keeps_backlog (ret a).
Proof. intros w. reflexivity. Qed.

Lemma keeps_raise {A} (e : exn) : keeps_backlog (@raise A e).
Proof. intros w. reflexivity. Qed.

Lemma keeps_lift {A} (o : outcome A) : keeps_backlog (lift o).
Proof. intros w. reflexivity. Qed.

Lemma keeps_bind {A B} (m : M A) (k : A -> M B) :
  keeps_backlog m -> (forall a, keeps_backlog (k a)) ->
  keeps_backlog (bind m k).
Proof.
  intros Hm Hk w. unfold bind. specialize (Hm w).
  destruct (m w) as [[a|e] w']; cbn in *; [|exact Hm].
  now rewrite Hk.
Qed.

Lemma keeps_try {A} (m : M A) (h : exn -> M A) :
  keeps_backlog m -> (forall e, keeps_backlog (h e)) ->
  keeps_backlog (try_except m h).
Proof.
  intros Hm Hh w. unfold try_except. specialize (Hm w).
  destruct (m w) as [[a|e] w']; cbn in *; [exact Hm|].
  now rewrite Hh.
Qed.

Lemma keeps_load (p : path) (g : global) : keeps_backlog (load_json p g).
Proof. intros w. unfold load_json. now destruct (read_file p w). Qed.

Lemma keeps_deref (h : handle) : keeps_backlog (deref h).
Proof. intros w. now destruct h. Qed.

Lemma keeps_store (h : handle) (v : json) : keeps_backlog (store h v).
Proof. intros w. destruct h as [|[]]; reflexivity. Qed.

Lemma keeps_now (clock : nat -> string) : keeps_backlog (now_iso clock).
Proof. intros w. reflexivity. Qed.

Lemma keeps_post (post_raises : json -> bool) (payload : json) :
  keeps_backlog (post post_raises payload).
Proof. intros w. reflexivity. Qed.

#[export] Hint Resolve keeps_ret keeps_raise keeps_lift keeps_load keeps_deref
  keeps_store keeps_now keeps_post : frame.

(** Splits a computation along its binds and branches. *)
Ltac frame :=
  repeat first
    [ progress intros
    | solve [auto with frame]
    | apply keeps_bind
    | apply keeps_try
    | match goal with
      | |- keeps_backlog (if ?b then _ else _) => destruct b
      | |- keeps_backlog (match ?x with _ => _ end) => destruct x
      end ].

Lemma keeps_setitem (h : handle) (k : string) (x : json) :
  keeps_backlog (setitem h k x).
Proof. unfold setitem. frame. Qed.

Lemma keeps_getdefault (h : handle) (k : string) (dflt : json) :
  keeps_backlog (getdefault h k dflt).
Proof. unfold getdefault. frame. Qed.

Lemma keeps_save (p : path) (h : handle) :
  p <> BACKLOG_PATH -> keeps_backlog (save_json p h).
Proof.
  intros Hp w. unfold save_json, bind.
  destruct h; cbn; destruct p; try congruence; reflexivity.
Qed.

#[export] Hint Resolve keeps_setitem keeps_getdefault : frame.
#[export] Hint Extern 1 (keeps_backlog (save_json _ _)) =>
  apply keeps_save; discriminate : frame.

Lemma keeps_bump_metric (name : string) : keeps_backlog (bump_metric name).
Proof. unfold bump_metric. frame. Qed.

#[export] Hint Resolve keeps_bump_metric : frame.

Lemma keeps_read_state (clock : nat -> string) :
  keeps_backlog (read_state clock).
Proof. unfold read_state. frame. Qed.

Lemma keeps_write_state (u : dict) : keeps_backlog (write_state u).
Proof. unfold write_state. frame. Qed.

Lemma keeps_read_backlog (f : string) : keeps_backlog (read_backlog f).
Proof. unfold read_backlog. frame. Qed.

Lemma keeps_log_accomplishment (clock : nat -> string)
    (category description impact : string) (artifacts : list string) :
  keeps_backlog (log_accomplishment clock category description impact
                                    artifacts).
Proof. unfold log_accomplishment. frame. Qed.

Lemma keeps_send_notification (clock : nat -> string) (webhook : string)
    (post_raises : json -> bool) (message priority channel : string) :
  keeps_backlog (send_notification clock webhook post_raises
                                   message priority channel).
Proof. unfold send_notification. frame. Qed.

(* ================================================================== *)
(** ** update_task: notes *)
(* ================================================================== *)

Section UpdateNotes.

Variable clock : nat -> string.

Lemma touch_status (status : string) (notes : option string) (a b : string)
    (t : dict) :
  dict_get "status" (touch status notes a b t) = Some (JStr status)
  /\ dict_get "updated_at" (touch status notes a b t) = Some (JStr a).
Proof.
  unfold touch.
  destruct notes as [n|]; [destruct (String.eqb n "")|]; cbn [negb];
    destruct (String.eqb status "completed"); dict_simpl; auto.
Qed.

Lemma touch_notes (status : string) (notes : option string) (a b : string)
    (t : dict) :
  dict_get "notes" (touch status notes a b t)
  = match notes with
    | Some n => if String.eqb n "" then dict_get "notes" t else Some (JStr n)
    | None => dict_get "notes" t
    end.
Proof.
  unfold touch.
  destruct notes as [n|]; [destruct (String.eqb n "")|]; cbn [negb];
    destruct (String.eqb status "completed"); dict_simpl; auto.
Qed.

(** The backlog file after a run of [update_task] that finds its task,
    whatever becomes of the metric bump. *)
Lemma update_task_hit_backlog (w : world) (d : dict) (l1 l2 : list json)
    (t : dict) (task_id status : string) (notes : option string) :
  document BACKLOG_PATH DEFAULT_BACKLOG w = JDict d ->
  dict_get "tasks" d = Some (JList (l1 ++ JDict t :: l2)) ->
  Forall is_dict l1 ->
  Forall (fun x => has_id task_id x = false) l1 ->
  has_id task_id (JDict t) = true ->
  backlog_file (snd (update_task clock task_id status notes w))
  = Parsed (JDict (dict_set "tasks"
                     (JList (l1 ++ JDict (touch status notes (clock (ticks w))
                                            (clock (S (ticks w))) t) :: l2))
                     d)).
Proof.
  intros Hdoc Htasks Hd Hid Hhit.
  rewrite (update_task_hit clock w d l1 l2 t task_id status notes
             Hdoc Htasks Hd Hid Hhit).
  cbn zeta.
  match goal with |- context [persist BACKLOG_PATH ?g ?v ?w0] =>
    set (w1 := persist BACKLOG_PATH g v w0);
    assert (Hw1 : backlog_file w1 = Parsed v)
      by apply (persist_read_same BACKLOG_PATH g v w0)
  end.
  destruct (String.eqb status "completed"); [|exact Hw1].
  pose proof (keeps_bump_metric "tasks_completed" w1) as Hk.
  destruct (bump_metric "tasks_completed" w1) as [[[]|e] w2]; cbn in *;
    congruence.
Qed.

(** C10. When the backlog document holds a task with the given id,
    [update_task] called without notes, or with the empty string, leaves
    the [notes] of that task as they were (present or absent), while its
    status becomes the new status and [updated_at] the clock reading of
    the call; notes that are a non-empty string replace the old ones.
    Unless the new status is completed, the call succeeds. *)
Theorem update_task_keeps_notes (w : world) (d : dict) (l1 l2 : list json)
    (t : dict) (task_id status : string) (notes : option string) :
  document BACKLOG_PATH DEFAULT_BACKLOG w = JDict d ->
  dict_get "tasks" d = Some (JList (l1 ++ JDict t :: l2)) ->
  Forall is_dict l1 ->
  Forall (fun x => has_id task_id x = false) l1 ->
  has_id task_id (JDict t) = true ->
  exists t',
    stored_tasks (snd (update_task clock task_id status notes w))
    = (l1 ++ JDict t' :: l2)%list
    /\ dict_get "status" t' = Some (JStr status)
    /\ dict_get "updated_at" t' = Some (JStr (clock (ticks w)))
    /\ (notes = None \/ notes = Some "" ->
        dict_get "notes" t' = dict_get "notes" t)
    /\ (forall n, notes = Some n -> n <> "" ->
        dict_get "notes" t' = Some (JStr n))
    /\ (status <> "completed" ->
        fst (update_task clock task_id status notes w)
        = Return (JDict [("success", JBool true);
                         ("message",
                           JStr ("Task " ++ task_id ++ " updated to "
                                 ++ status))])).
Proof.
  intros Hdoc Htasks Hd Hid Hhit.
  exists (touch status notes (clock (ticks w)) (clock (S (ticks w))) t).
  split; [|split; [|split; [|split; [|split]]]].
  - unfold stored_tasks.
    rewrite (update_task_hit_backlog w d l1 l2 t task_id status notes
               Hdoc Htasks Hd Hid Hhit).
    now rewrite dict_get_set_same.
  - apply touch_status.
  - apply touch_status.
  - rewrite touch_notes. intros [->| ->]; reflexivity.
  - intros n -> Hn. rewrite touch_notes.
    destruct (String.eqb_spec n ""); congruence.
  - intros Hs.
    rewrite (update_task_hit clock w d l1 l2 t task_id status notes
               Hdoc Htasks Hd Hid Hhit).
    cbn zeta. destruct (String.eqb_spec status "completed"); [congruence|].
    reflexivity.
Qed.

End UpdateNotes.

(* ================================================================== *)
(** ** send_notification *)
(* ================================================================== *)

Section SendNotification.

Variable clock : nat -> string.
Variable NOTIFICATION_WEBHOOK : string.
Variable post_raises : json -> bool.

Lemma persist_forwarded (p : path) (g : global) (v : json) (w : world) :
  forwarded (persist p g v w) = forwarded w.
Proof.
  unfold persist. destruct p, g, (read_file _ w); reflexivity.
Qed.

(** C9. On a state document with a [metrics] dictionary whose
    [notifications_sent] is an integer [c] (or absent, with [c = 0]),
    [send_notification] leaves [notifications_sent = c + 1] in the state
    file and answers success, whether or not the HTTP client raises; the
    payload of message, priority and timestamp is posted exactly when the
    webhook is configured and the priority is high or urgent, and nothing
    is posted otherwise. *)
Theorem send_notification_counts (w : world) (s m : dict) (c : Z)
    (message priority channel : string) :
  document STATE_PATH DEFAULT_STATE w = JDict s ->
  dict_get "metrics" s = Some (JDict m) ->
  int_field "notifications_sent" 0 m = Some c ->
  let r := send_notification clock NOTIFICATION_WEBHOOK post_raises
                             message priority channel w in
  fst r = Return (JDict [("success", JBool true);
                         ("message", JStr "Notification sent")])
  /\ metric "notifications_sent" (snd r) = Some (JInt (c + 1))
  /\ forwarded (snd r)
     = if negb (String.eqb NOTIFICATION_WEBHOOK "")
          && (String.eqb priority "high" || String.eqb priority "urgent")
       then (forwarded w
             ++ [JDict [("message", JStr message);
                        ("priority", JStr priority);
                        ("timestamp", JStr (clock (ticks w)))]])%list
       else forwarded w.
Proof.
  intros Hdoc Hm Hc. cbn zeta.
  set (s' := dict_set "metrics"
               (JDict (dict_set "notifications_sent" (JInt (c + 1)) m)) s).
  set (w1 := persist STATE_PATH DEFAULT_STATE (JDict s') w).
  assert (Hs1 : state_file w1 = Parsed (JDict s'))
    by apply (persist_read_same STATE_PATH).
  assert (Hf1 : forwarded w1 = forwarded w) by apply persist_forwarded.
  assert (Ht1 : ticks w1 = ticks w) by apply persist_ticks.
  assert (Hrun : exists w2,
    send_notification clock NOTIFICATION_WEBHOOK post_raises
                      message priority channel w
    = (Return (JDict [("success", JBool true);
                      ("message", JStr "Notification sent")]), w2)
    /\ state_file w2 = state_file w1
    /\ forwarded w2
       = if negb (String.eqb NOTIFICATION_WEBHOOK "")
            && (String.eqb priority "high" || String.eqb priority "urgent")
         then (forwarded w1
               ++ [JDict [("message", JStr message);
                          ("priority", JStr priority);
                          ("timestamp", JStr (clock (ticks w1)))]])%list
         else forwarded w1).
  { unfold send_notification, bind at 1.
    rewrite (bump_metric_run w s m c "notifications_sent" Hdoc Hm Hc).
    fold s' w1. clearbody w1. unfold high_or_urgent.
    destruct (negb (String.eqb NOTIFICATION_WEBHOOK "")
              && (String.eqb priority "high" || String.eqb priority "urgent")).
    - unfold bind, try_except, now_iso, post, ret. cbn.
      destruct (post_raises _); cbn; eexists; repeat split.
    - unfold bind, ret. cbn. eexists; repeat split. }
  destruct Hrun as (w2 & -> & Hs2 & Hf2). cbn [fst snd].
  split; [reflexivity|]. split.
  - unfold metric. rewrite Hs2, Hs1. unfold s'.
    now rewrite !dict_get_set_same.
  - now rewrite Hf2, Hf1, Ht1.
Qed.

End SendNotification.

(* ================================================================== *)
(** ** Task identity and completion time across requests *)
(* ================================================================== *)

Section TaskFields.

Variable clock : nat -> string.
Variable NOTIFICATION_WEBHOOK : string.
Variable post_raises : json -> bool.

(** The three ways the loop of [update_task] can end. *)
Lemma update_loop_cases (task_id status : string) (notes : option string)
    (l : list json) (w : world) :
  (exists e, update_loop clock task_id status notes l w = (Raise e, w))
  \/ update_loop clock task_id status notes l w = (Return None, w)
  \/ exists l1 t l2,
       l = (l1 ++ JDict t :: l2)%list
       /\ Forall is_dict l1
       /\ Forall (fun x => has_id task_id x = false) l1
       /\ has_id task_id (JDict t) = true.
Proof.
  induction l as [|x l IH].
  - right. left. reflexivity.
  - destruct x as [| | | | | |t];
      try (left; exists AttributeError; reflexivity).
    destruct (has_id task_id (JDict t)) eqn:Hx.
    + right. right. exists [], t, l. repeat split; auto.
    + assert (Hstep : update_loop clock task_id status notes (JDict t :: l) w
                      = (r <- update_loop clock task_id status notes l ;;
                         ret (option_map (cons (JDict t)) r)) w).
      { cbn [update_loop]. unfold bind at 1, lift at 1. cbn [py_get].
        unfold has_id in Hx. cbn in Hx.
        destruct (dict_get "id" t) as [v|]; cbn; [now rewrite Hx|reflexivity]. }
      rewrite Hstep. unfold bind.
      destruct IH as [(e & ->)|[->|(l1 & t0 & l2 & -> & Hd & Hid & Hhit)]].
      * left. now exists e.
      * right. left. reflexivity.
      * right. right. exists (JDict t :: l1), t0, l2.
        repeat split; auto; constructor; cbn; auto.
Qed.

(** What [update_task] can do to the tasks of a well-formed backlog file:
    nothing when no task can be reached with the id, and otherwise the
    first such task is changed in place. *)
Lemma update_task_stored (w : world) (d : dict) (l : list json)
    (task_id status : string) (notes : option string) :
  backlog_file w = Parsed (JDict d) ->
  dict_get "tasks" d = Some (JList l) ->
  (stored_tasks (snd (update_task clock task_id status notes w)) = l
   /\ forall l1 t l2,
        l = (l1 ++ JDict t :: l2)%list ->
        Forall is_dict l1 ->
        Forall (fun x => has_id task_id x = false) l1 ->
        has_id task_id (JDict t) = true -> False)
  \/ exists l1 t l2,
       l = (l1 ++ JDict t :: l2)%list
       /\ Forall is_dict l1
       /\ Forall (fun x => has_id task_id x = false) l1
       /\ has_id task_id (JDict t) = true
       /\ stored_tasks (snd (update_task clock task_id status notes w))
          = (l1 ++ JDict (touch status notes (clock (ticks w))
                            (clock (S (ticks w))) t) :: l2)%list.
Proof.
  intros Hfile Htasks.
  assert (Hstored : stored_tasks w = l).
  { unfold stored_tasks. now rewrite Hfile, Htasks. }
  assert (Hprefix : forall o,
            update_loop clock task_id status notes l w = (o, w) ->
            (forall l', o <> Return (Some l')) ->
            stored_tasks (snd (update_task clock task_id status notes w)) = l
            /\ forall l1 t l2,
                 l = (l1 ++ JDict t :: l2)%list ->
                 Forall is_dict l1 ->
                 Forall (fun x => has_id task_id x = false) l1 ->
                 has_id task_id (JDict t) = true -> False).
  { intros o Ho Hnot. split.
    - unfold update_task, bind, load_json, getdefault. cbn.
      rewrite Hfile. cbn. rewrite Htasks. cbn. rewrite Ho.
      destruct o as [[l'|]|e]; cbn; try exact Hstored.
      now destruct (Hnot l').
    - intros l1 t l2 Hl Hd Hid Hhit. rewrite Hl in Ho.
      rewrite (update_loop_hit clock task_id status notes l1 l2 t w
                 Hd Hid Hhit) in Ho.
      injection Ho as <- _. now eapply Hnot. }
  destruct (update_loop_cases task_id status notes l w)
    as [(e & He)|[Hnone|(l1 & t & l2 & -> & Hd & Hid & Hhit)]].
  - left. apply (Hprefix _ He). discriminate.
  - left. apply (Hprefix _ Hnone). discriminate.
  - right. exists l1, t, l2. repeat (split; [assumption || reflexivity|]).
    unfold stored_tasks.
    rewrite (update_task_hit_backlog clock w d l1 l2 t task_id status notes
               (document_parsed BACKLOG_PATH DEFAULT_BACKLOG _ w Hfile)
               Htasks Hd Hid Hhit).
    now rewrite dict_get_set_same.
Qed.

(** What [add_task] can do to the tasks of a well-formed backlog file. *)
Lemma add_task_stored (w : world) (d : dict) (l : list json)
    (title description priority : string) :
  backlog_file w = Parsed (JDict d) ->
  dict_get "tasks" d = Some (JList l) ->
  exists extra,
    stored_tasks (snd (add_task clock title description priority w))
    = (l ++ extra)%list.
Proof.
  intros Hfile Htasks.
  unfold add_task, bind, load_json, getdefault. cbn.
  rewrite Hfile. cbn. rewrite Htasks. cbn.
  destruct (existing_ids l) as [ids|e]; cbn.
  - rewrite ?Htasks. cbn. rewrite ?Htasks. cbn.
    eexists [_]. unfold stored_tasks. cbn.
    now rewrite dict_get_set_same.
  - exists []. unfold stored_tasks. rewrite Hfile, Htasks.
    now rewrite List.app_nil_r.
Qed.

Lemma touch_completed_at (status : string) (notes : option string)
    (a b : string) (t : dict) :
  dict_get "completed_at" (touch status notes a b t)
  = if String.eqb status "completed" then Some (JStr b)
    else dict_get "completed_at" t.
Proof.
  unfold touch.
  destruct notes as [n|]; [destruct (String.eqb n "")|]; cbn [negb];
    destruct (String.eqb status "completed"); dict_simpl; auto.
Qed.

Lemma stored_tasks_inv (w : world) (i : nat) (t : json) :
  nth_error (stored_tasks w) i = Some t ->
  exists d, backlog_file w = Parsed (JDict d)
            /\ dict_get "tasks" d = Some (JList (stored_tasks w)).
Proof.
  unfold stored_tasks.
  destruct (backlog_file w) as [| |[| | | | | |d]];
    try (destruct i; discriminate).
  destruct (dict_get "tasks" d) as [[| | | | |l|]|] eqn:Hget;
    try (destruct i; discriminate).
  intros _. now exists d.
Qed.

Lemma stored_tasks_keeps {A} (m : M A) (w : world) :
  keeps_backlog m -> stored_tasks (snd (m w)) = stored_tasks w.
Proof.
  intros Hm. unfold stored_tasks. now rewrite Hm.
Qed.

Lemma serve_keeps (r : request) :
  (forall task_id status notes, r <> UpdateTask task_id status notes) ->
  (forall title description priority,
      r <> AddTask title description priority) ->
  keeps_backlog (serve clock NOTIFICATION_WEBHOOK post_raises r).
Proof.
  intros Hu Ha. destruct r; cbn [serve].
  - apply keeps_read_state.
  - apply keeps_write_state.
  - apply keeps_read_backlog.
  - now destruct (Hu task_id status notes).
  - now destruct (Ha title description priority).
  - apply keeps_log_accomplishment.
  - apply keeps_send_notification.
Qed.

(** C6, as the code has it. Whatever the request, a task of the backlog file
    stays at its position with the same [id], and its [completed_at] is as
    before unless the request is an [update_task] to status completed whose
    id the task has, in which case it is a clock reading of that call: the
    field is never removed.  Every such update of the first task with the
    id writes [completed_at] anew, also when the task was completed
    already. *)
Theorem task_id_fixed_completion_restamped (r : request) (w : world)
    (i : nat) (t : json) :
  nth_error (stored_tasks w) i = Some t ->
  exists t',
    nth_error
      (stored_tasks (snd (serve clock NOTIFICATION_WEBHOOK post_raises r w))) i
    = Some t'
    /\ field "id" t' = field "id" t
    /\ (field "completed_at" t' = field "completed_at" t
        \/ exists task_id notes,
             r = UpdateTask task_id "completed" notes
             /\ has_id task_id t = true
             /\ field "completed_at" t'
                = Some (JStr (clock (S (ticks w)))))
    /\ (forall task_id notes,
          r = UpdateTask task_id "completed" notes ->
          has_id task_id t = true ->
          Forall is_dict (firstn i (stored_tasks w)) ->
          Forall (fun x => has_id task_id x = false)
                 (firstn i (stored_tasks w)) ->
          field "completed_at" t' = Some (JStr (clock (S (ticks w))))).
Proof.
  intros Hnth.
  destruct (stored_tasks_inv w i t Hnth) as (d & Hfile & Htasks).
  set (l := stored_tasks w) in *.
  destruct r as [|u|f|task_id status notes|title description priority| |];
    try (exists t; split;
         [ rewrite stored_tasks_keeps;
           [exact Hnth|apply serve_keeps; discriminate]
         | repeat split; auto; discriminate ]).
  - (* update_task *)
    cbn [serve].
    destruct (update_task_stored w d l task_id status notes Hfile Htasks)
      as [(Hl' & Hno)|(l1 & t0 & l2 & Hl & Hd & Hid & Hhit & Hl')];
      rewrite Hl'.
    + (* nothing written *)
      exists t. repeat split; auto.
      intros task_id' notes' Hr' Hidt Hdi Hmiss. exfalso.
      injection Hr' as -> _ _.
      apply nth_error_split in Hnth. destruct Hnth as (k1 & k2 & Hk & Hlen).
      subst i. rewrite Hk, firstn_app, firstn_all in Hdi, Hmiss.
      rewrite Nat.sub_diag in Hdi, Hmiss. cbn in Hdi, Hmiss.
      rewrite List.app_nil_r in Hdi, Hmiss.
      destruct t as [| | | | | |tt]; try discriminate.
      exact (Hno k1 tt k2 Hk Hdi Hmiss Hidt).
    + (* the first task with the id is changed in place *)
      rewrite Hl in Hnth.
      destruct (Nat.lt_trichotomy i (length l1)) as [Hlt|[Heq|Hgt]].
      * rewrite nth_error_app1 in Hnth |- * by exact Hlt.
        exists t. repeat split; auto.
        intros task_id' notes' Hr' Hidt _ _. exfalso.
        injection Hr' as -> _ _.
        apply nth_error_In in Hnth. rewrite Forall_forall in Hid.
        specialize (Hid t Hnth). congruence.
      * subst i.
        rewrite nth_error_app2, Nat.sub_diag in Hnth |- * by lia.
        cbn in Hnth |- *. injection Hnth as <-.
        eexists. split; [reflexivity|]. cbn [field].
        split; [apply touch_other; discriminate|].
        rewrite touch_completed_at.
        destruct (String.eqb_spec status "completed") as [->|Hs].
        -- split; [right; exists task_id, notes; auto|auto].
        -- split; [left; reflexivity|].
           intros task_id' notes' Hr'. congruence.
      * rewrite nth_error_app2 in Hnth |- * by lia.
        destruct (i - length l1)%nat as [|k] eqn:Hk; [lia|].
        cbn in Hnth |- *. exists t. repeat split; auto.
        intros task_id' notes' Hr' Hidt _ Hmiss. exfalso.
        injection Hr' as -> _ _.
        rewrite Hl, firstn_app, Hk in Hmiss. cbn in Hmiss.
        apply Forall_app in Hmiss. destruct Hmiss as [_ Hmiss].
        inversion Hmiss; subst. congruence.
  - (* add_task *)
    cbn [serve].
    destruct (add_task_stored w d l title description priority Hfile Htasks)
      as (extra & ->).
    exists t. rewrite nth_error_app1
      by (apply nth_error_Some; congruence).
    repeat split; auto; discriminate.
Qed.

End TaskFields.

(* ================================================================== *)
(** ** load_json and the module-level defaults *)
(* ================================================================== *)

(** When the file is absent or does not parse, [load_json] raises nothing
    and returns its [default] argument: the global object itself. *)
Lemma load_json_fallback (p : path) (g : global) (w : world) :
  read_file p w = Missing \/ read_file p w = Unparsable ->
  load_json p g w = (Return (Alias g), w).
Proof.
  unfold load_json. intros [-> | ->]; reflexivity.
Qed.

(** In a process that has changed nothing yet, that object holds the
    dictionary literal of the source. *)
Lemma load_json_fresh (p : path) (g : global) (s b a : file) :
  read_file p (fresh_process s b a) = Missing
  \/ read_file p (fresh_process s b a) = Unparsable ->
  loaded p g (fresh_process s b a) = Return (literal g).
Proof.
  intros H. unfold loaded, bind. rewrite (load_json_fallback p g _ H).
  destruct g; reflexivity.
Qed.

(** C8, where the code departs from it. A process starts on an empty data
    directory and serves one [add_task]; the backlog file it wrote is then
    lost, or damaged so that it no longer parses.  [load_json] on the
    backlog path now returns a backlog holding task-001, not the empty
    backlog of [DEFAULT_BACKLOG]'s literal, and [read_backlog] reports one
    task: the task was appended to the global object that the first
    [load_json] had handed out.  The state default is changed the same way
    by a completion: after it, a lost state file reads back with
    [tasks_completed] 1. *)
Theorem load_json_returns_mutated_default :
  literal DEFAULT_BACKLOG = JDict [("tasks", JList [])]
  /\ loaded BACKLOG_PATH DEFAULT_BACKLOG (backlog_lost Missing)
     = Return (JDict [("tasks",
                       JList [new_task "task-001" "t1" "d1" "high"
                                       "2026-01-01T00:00:00.000+00:00"])])
  /\ loaded BACKLOG_PATH DEFAULT_BACKLOG (backlog_lost Unparsable)
     = Return (JDict [("tasks",
                       JList [new_task "task-001" "t1" "d1" "high"
                                       "2026-01-01T00:00:00.000+00:00"])])
  /\ fst (read_backlog "all" (backlog_lost Unparsable))
     = Return (JDict [("success", JBool true);
                      ("tasks",
                        JList [new_task "task-001" "t1" "d1" "high"
                                        "2026-01-01T00:00:00.000+00:00"]);
                      ("total", JInt 1)])
  /\ match loaded STATE_PATH DEFAULT_STATE state_lost with
     | Return v => field "metrics" v
     | Raise _ => None
     end
     = Some (JDict [("total_accomplishments", JInt 0);
                    ("tasks_completed", JInt 1);
                    ("notifications_sent", JInt 0)]).
Proof.
  repeat split; vm_compute; reflexivity.
Qed.


(* ================================================================== *)
(** ** Running a request on an arbitrary world *)
(* ================================================================== *)

Section Runs.

Variable clock : nat -> string.
Variable NOTIFICATION_WEBHOOK : string.
Variable post_raises : json -> bool.

(** The loop of [update_task] changes nothing in the world but the number
    of clock readings. *)
Lemma update_loop_ticks (task_id status : string) (notes : option string)
    (l : list json) (w : world) :
  exists k, snd (update_loop clock task_id status notes l w) = tick k w.
Proof.
  induction l as [|x l IH].
  - exists 0%nat. destruct w; reflexivity.
  - cbn [update_loop]. unfold bind at 1, lift at 1.
    destruct (py_get x "id" JNull) as [i|e]; cbn;
      [|exists 0%nat; destruct w; reflexivity].
    destruct (py_eq_str i task_id).
    + unfold bind, lift, now_iso, ret.
      destruct (py_setitem x "status" (JStr status)) as [t1|e]; cbn;
        [|exists 0%nat; destruct w; reflexivity].
      destruct (py_setitem t1 "updated_at" (JStr (clock (ticks w))))
        as [t2|e]; cbn; [|exists 1%nat; reflexivity].
      destruct notes as [n|]; [destruct (String.eqb n ""); cbn|cbn];
        repeat match goal with
          | |- context [match ?x with _ => _ end] =>
              lazymatch x with
              | context [match _ with _ => _ end] => fail
              | _ => destruct x eqn:?
              end; cbn
          end;
        solve [exists 1%nat; reflexivity | exists 2%nat; reflexivity].
    + unfold bind. destruct IH as [k Hk].
      destruct (update_loop clock task_id status notes l w) as [[r|e] w'];
        cbn in *; subst; now exists k.
Qed.

End Runs.

(** Unfolds an endpoint down to matches on the values it reads. *)
Ltac run_unfold :=
  unfold serve, read_state, write_state, read_backlog, update_task, add_task,
    log_accomplishment, send_notification, bump_metric, setitem, getdefault,
    save_json, load_json, now_iso, post, try_except, bind, lift, ret, raise,
    deref, store, py_get, py_getitem, py_setitem, py_append.

(** Splits on the innermost value a run is waiting for. *)
Ltac split_innermost :=
  match goal with
  | |- context [update_loop ?c ?i ?s ?n ?l ?w] =>
      let k := fresh "k" in
      let H := fresh "Hk" in
      destruct (update_loop_ticks c i s n l w) as [k H];
      destruct (update_loop c i s n l w) as [[[?|]|?] ?];
      cbn in H; subst
  | |- context [match ?x with _ => _ end] =>
      lazymatch x with
      | context [match _ with _ => _ end] => fail
      | _ => destruct x eqn:?
      end
  end.

Ltac crunch := repeat (cbn; dict_simpl; try split_innermost).

Section Footprint.

Variable clock : nat -> string.
Variable NOTIFICATION_WEBHOOK : string.
Variable post_raises : json -> bool.

(** A request writes only the files of its own documents. *)
Lemma serve_untouched (r : request) (p : path) (w : world) :
  writes r p = false ->
  read_file p (snd (serve clock NOTIFICATION_WEBHOOK post_raises r w)) = read_file p w.
Proof.
  destruct w as [sf bf af ds db da tk fw].
  destruct r, p; cbn [writes]; try discriminate; intros Hw;
    run_unfold; crunch; solve [reflexivity | discriminate].
Qed.

(** No request removes a file or leaves one that does not parse. *)
Lemma serve_keeps_parsed (r : request) (p : path) (w : world) :
  is_parsed (read_file p w) -> is_parsed (read_file p (snd (serve clock NOTIFICATION_WEBHOOK post_raises r w))).
Proof.
  destruct w as [sf bf af ds db da tk fw].
  destruct r, p; cbn [read_file state_file backlog_file accomplishments_file];
    intros Hp; run_unfold; crunch; solve [exact I | exact Hp | contradiction].
Qed.

(** A request never changes a module-level default whose file parses: the
    document it loads is then a value of its own. *)
Lemma serve_keeps_default (r : request) (p : path) (w : world) :
  is_parsed (read_file p w) ->
  global_val (default_of p) (snd (serve clock NOTIFICATION_WEBHOOK post_raises r w)) = global_val (default_of p) w.
Proof.
  destruct w as [sf bf af ds db da tk fw].
  destruct r, p; cbn [read_file state_file backlog_file accomplishments_file];
    intros Hp; run_unfold; crunch; solve [reflexivity | contradiction].
Qed.

(** X1. A request that raises has written nothing, unless it is one of the
    two that save a document before they bump a metric (a completion, an
    accomplishment): every file and every module-level default is as
    before, and no notification has been forwarded. *)
Theorem serve_raise_writes_nothing (r : request) (w : world) (e : exn) :
  two_step r = false ->
  fst (serve clock NOTIFICATION_WEBHOOK post_raises r w) = Raise e ->
  (forall p,
     read_file p (snd (serve clock NOTIFICATION_WEBHOOK post_raises r w))
     = read_file p w
     /\ global_val (default_of p)
          (snd (serve clock NOTIFICATION_WEBHOOK post_raises r w))
        = global_val (default_of p) w)
  /\ forwarded (snd (serve clock NOTIFICATION_WEBHOOK post_raises r w))
     = forwarded w.
Proof.
  destruct w as [sf bf af ds db da tk fw].
  intros Ht Hr. split; [intros p|]; revert Hr.
  - destruct r, p; cbn [two_step] in Ht; try discriminate;
      run_unfold; crunch;
      solve [ intros; split; reflexivity | intros; discriminate ].
  - destruct r; cbn [two_step] in Ht; try discriminate;
      run_unfold; crunch;
      solve [ intros; reflexivity | intros; discriminate ].
Qed.

(** A request on a world whose default for [p] is the literal leaves the
    file parsed or the default as it was. *)
Lemma serve_literal_default (r : request) (p : path) (w : world) :
  global_val (default_of p) w = literal (default_of p) ->
  is_parsed (read_file p (snd (serve clock NOTIFICATION_WEBHOOK post_raises
                                     r w)))
  \/ global_val (default_of p)
       (snd (serve clock NOTIFICATION_WEBHOOK post_raises r w))
     = literal (default_of p).
Proof.
  destruct w as [sf bf af ds db da tk fw].
  destruct r, p; cbn [global_val default_of default_state default_backlog
                        default_accomplishments literal];
    intros ->; run_unfold; crunch;
    solve [ left; exact I | right; reflexivity ].
Qed.

Lemma serve_pristine (r : request) (w : world) :
  pristine w ->
  pristine (snd (serve clock NOTIFICATION_WEBHOOK post_raises r w)).
Proof.
  intros Hw p. destruct (Hw p) as [Hp|Hg].
  - left. now apply serve_keeps_parsed.
  - now apply serve_literal_default.
Qed.

Lemma serve_all_pristine (rs : list request) (w : world) :
  pristine w ->
  pristine (serve_all clock NOTIFICATION_WEBHOOK post_raises rs w).
Proof.
  revert w. induction rs as [|r rs IH]; intros w Hw; cbn [serve_all];
    [exact Hw|]. apply IH. now apply serve_pristine.
Qed.

(** X2. In a process whose files only the server writes, a fallback of
    [load_json] returns the dictionary literal of the source: after any
    run of requests from a fresh process, on whatever files it found,
    each file either parses or its default is still the literal. *)
Theorem defaults_intact_in_closed_run (s b a : file) (rs : list request)
    (p : path) :
  is_parsed (read_file p (serve_all clock NOTIFICATION_WEBHOOK post_raises rs
                            (fresh_process s b a)))
  \/ loaded p (default_of p)
       (serve_all clock NOTIFICATION_WEBHOOK post_raises rs
          (fresh_process s b a))
     = Return (literal (default_of p)).
Proof.
  assert (Hp : pristine (serve_all clock NOTIFICATION_WEBHOOK post_raises rs
                           (fresh_process s b a))).
  { apply serve_all_pristine. intros q. right. now destruct q. }
  set (w := serve_all _ _ _ _ _) in *.
  destruct (read_file p w) as [| |v] eqn:Hf; [right|right|left; exact I].
  - destruct (Hp p) as [Hq|Hg]; [now rewrite Hf in Hq|].
    unfold loaded, bind.
    rewrite (load_json_fallback p _ w (or_introl Hf)). cbn.
    destruct p; cbn in *; now rewrite Hg.
  - destruct (Hp p) as [Hq|Hg]; [now rewrite Hf in Hq|].
    unfold loaded, bind.
    rewrite (load_json_fallback p _ w (or_intror Hf)). cbn.
    destruct p; cbn in *; now rewrite Hg.
Qed.

(** X3. [read_backlog] is read-only: it writes no file, reads no clock and
    forwards nothing; when the backlog file parses it changes nothing at
    all, so asking again gives the same answer. *)
Theorem read_backlog_read_only (f : string) (w : world) :
  (forall p, read_file p (snd (read_backlog f w)) = read_file p w)
  /\ ticks (snd (read_backlog f w)) = ticks w
  /\ forwarded (snd (read_backlog f w)) = forwarded w
  /\ (is_parsed (backlog_file w) ->
      snd (read_backlog f w) = w
      /\ fst (read_backlog f (snd (read_backlog f w)))
         = fst (read_backlog f w)).
Proof.
  assert (Hparsed : is_parsed (backlog_file w) -> snd (read_backlog f w) = w).
  { destruct w as [sf bf af ds db da tk fw]. cbn. intros Hp.
    run_unfold; crunch; solve [reflexivity | contradiction]. }
  split; [|split; [|split]].
  - intros p. destruct w as [sf bf af ds db da tk fw].
    destruct p; run_unfold; crunch; reflexivity.
  - destruct w as [sf bf af ds db da tk fw].
    run_unfold; crunch; reflexivity.
  - destruct w as [sf bf af ds db da tk fw].
    run_unfold; crunch; reflexivity.
  - intros Hp. split; [now apply Hparsed|]. now rewrite (Hparsed Hp).
Qed.

End Footprint.


(* ================================================================== *)
(** ** log_accomplishment and the two-step requests *)
(* ================================================================== *)

Section TwoStep.

Variable clock : nat -> string.

(** A run of [log_accomplishment] on a well-formed log: the entry is saved,
    then the metric is bumped. *)
Lemma log_accomplishment_run (w : world) (a : dict) (l : list json)
    (category description impact : string) (artifacts : list string) :
  document ACCOMPLISHMENTS_PATH DEFAULT_ACCOMPLISHMENTS w = JDict a ->
  match dict_get "accomplishments" a with
  | Some v => v | None => JList [] end = JList l ->
  log_accomplishment clock category description impact artifacts w
  = let entry := new_entry (clock (ticks w)) category description impact
                           artifacts in
    let w1 := persist ACCOMPLISHMENTS_PATH DEFAULT_ACCOMPLISHMENTS
                (JDict (dict_set "accomplishments" (JList (l ++ [entry])) a))
                (tick 1 w) in
    match bump_metric "total_accomplishments" w1 with
    | (Return _, w2) => (Return accomplishment_ack, w2)
    | (Raise e, w2) => (Raise e, w2)
    end.
Proof.
  intros Hdoc Hl. unfold document in Hdoc. cbn zeta.
  unfold log_accomplishment, bind at 1 2 3 4 5 6 7 8 9, load_json, now_iso,
    setitem, save_json, persist, tick, new_entry.
  cbn in Hdoc. cbn [read_file].
  destruct (accomplishments_file w) as [| |v] eqn:Hfile; cbn in Hdoc;
    unfold deref, store, bind, lift, ret; cbn; rewrite ?Hdoc; cbn;
    (destruct (dict_get "accomplishments" a) as [v0|] eqn:Hget; cbn;
     [ subst v0; rewrite ?Hdoc; cbn; rewrite ?Hget; cbn
     | injection Hl as <-; rewrite ?Hdoc; cbn;
       rewrite ?dict_get_set_same; cbn; rewrite ?dict_set_set ]);
    match goal with |- context [bump_metric _ ?w0] =>
      destruct (bump_metric "total_accomplishments" w0) as [[[]|e] w2] end;
    reflexivity.
Qed.

End TwoStep.

Section TwoStepProps.

Variable clock : nat -> string.

Lemma persist_state_file_other (p : path) (g : global) (v : json) (w : world) :
  p <> STATE_PATH -> state_file (persist p g v w) = state_file w.
Proof.
  intros Hp. change (read_file STATE_PATH (persist p g v w)
                     = read_file STATE_PATH w).
  now apply persist_read_other.
Qed.

Lemma document_state_after_persist (p : path) (v : json) (n : nat)
    (w : world) :
  p <> STATE_PATH ->
  document STATE_PATH DEFAULT_STATE (persist p (default_of p) v (tick n w))
  = document STATE_PATH DEFAULT_STATE w.
Proof.
  intros Hp. unfold document, persist.
  destruct w as [sf bf af ds db da tk fw].
  destruct p; try congruence; cbn; [destruct bf, sf|destruct af, sf];
    reflexivity.
Qed.

(** X4. On a log document that is a dictionary whose entries are a list (or
    absent), and a state document with a [metrics] dictionary whose
    [total_accomplishments] is an integer [c] (or absent, with [c = 0]),
    [log_accomplishment] succeeds: the accomplishments file holds the old
    entries, unchanged and in order, followed by the new one with the clock
    reading of the call, and the state file has
    [total_accomplishments = c + 1]. *)
Theorem log_accomplishment_appends (w : world) (a : dict) (l : list json)
    (category description impact : string) (artifacts : list string)
    (s m : dict) (c : Z) :
  document ACCOMPLISHMENTS_PATH DEFAULT_ACCOMPLISHMENTS w = JDict a ->
  match dict_get "accomplishments" a with
  | Some v => v | None => JList [] end = JList l ->
  document STATE_PATH DEFAULT_STATE w = JDict s ->
  dict_get "metrics" s = Some (JDict m) ->
  int_field "total_accomplishments" 0 m = Some c ->
  let r := log_accomplishment clock category description impact artifacts w in
  fst r = Return (JDict [("success", JBool true);
                         ("message", JStr "Accomplishment logged")])
  /\ stored_accomplishments (snd r)
     = (l ++ [JDict [("timestamp", JStr (clock (ticks w)));
                     ("category", JStr category);
                     ("description", JStr description);
                     ("impact", JStr impact);
                     ("artifacts", JList (map JStr artifacts))]])%list
  /\ metric "total_accomplishments" (snd r) = Some (JInt (c + 1)).
Proof.
  intros Hdoc Hl Hstate Hm Hc. cbn zeta.
  rewrite (log_accomplishment_run clock w a l category description impact
             artifacts Hdoc Hl).
  cbn zeta.
  erewrite bump_metric_run;
    [| rewrite (document_state_after_persist ACCOMPLISHMENTS_PATH)
         by discriminate; exact Hstate
     | exact Hm | exact Hc].
  cbn [fst snd]. split; [reflexivity|]. split.
  - unfold stored_accomplishments.
    change (accomplishments_file ?x) with (read_file ACCOMPLISHMENTS_PATH x).
    rewrite persist_read_other by discriminate.
    rewrite persist_read_same. now rewrite dict_get_set_same.
  - unfold metric.
    change (state_file ?x) with (read_file STATE_PATH x).
    rewrite persist_read_same. now rewrite !dict_get_set_same.
Qed.

(** X5. [log_accomplishment] is not atomic: when the state document has no
    [metrics] key, the call raises [KeyError] after the entry has been
    saved; the accomplishments file holds the new entry and the state file
    is as before. *)
Theorem log_accomplishment_half_done (w : world) (a : dict) (l : list json)
    (category description impact : string) (artifacts : list string)
    (s : dict) :
  document ACCOMPLISHMENTS_PATH DEFAULT_ACCOMPLISHMENTS w = JDict a ->
  match dict_get "accomplishments" a with
  | Some v => v | None => JList [] end = JList l ->
  document STATE_PATH DEFAULT_STATE w = JDict s ->
  dict_get "metrics" s = None ->
  let r := log_accomplishment clock category description impact artifacts w in
  fst r = Raise (KeyError "metrics")
  /\ stored_accomplishments (snd r)
     = (l ++ [new_entry (clock (ticks w)) category description impact
                        artifacts])%list
  /\ state_file (snd r) = state_file w.
Proof.
  intros Hdoc Hl Hstate Hm. cbn zeta.
  rewrite (log_accomplishment_run clock w a l category description impact
             artifacts Hdoc Hl).
  cbn zeta.
  erewrite bump_metric_without_metrics;
    [| rewrite (document_state_after_persist ACCOMPLISHMENTS_PATH)
         by discriminate; exact Hstate
     | exact Hm].
  cbn [fst snd]. split; [reflexivity|]. split.
  - unfold stored_accomplishments.
    change (accomplishments_file ?x) with (read_file ACCOMPLISHMENTS_PATH x).
    rewrite persist_read_same. now rewrite dict_get_set_same.
  - rewrite persist_state_file_other by discriminate. reflexivity.
Qed.

(** X6. A completion is not atomic either: when the state document has no
    [metrics] key, [update_task] with status completed raises [KeyError]
    after the backlog has been saved; the backlog file holds the task as
    completed and the state file is as before. *)
Theorem update_task_half_done (w : world) (d : dict) (l1 l2 : list json)
    (t : dict) (task_id : string) (notes : option string) (s : dict) :
  document BACKLOG_PATH DEFAULT_BACKLOG w = JDict d ->
  dict_get "tasks" d = Some (JList (l1 ++ JDict t :: l2)) ->
  Forall is_dict l1 ->
  Forall (fun x => has_id task_id x = false) l1 ->
  has_id task_id (JDict t) = true ->
  document STATE_PATH DEFAULT_STATE w = JDict s ->
  dict_get "metrics" s = None ->
  let r := update_task clock task_id "completed" notes w in
  exists t',
    fst r = Raise (KeyError "metrics")
    /\ stored_tasks (snd r) = (l1 ++ JDict t' :: l2)%list
    /\ dict_get "status" t' = Some (JStr "completed")
    /\ dict_get "completed_at" t' = Some (JStr (clock (S (ticks w))))
    /\ state_file (snd r) = state_file w.
Proof.
  intros Hdoc Htasks Hd Hid Hhit Hstate Hm. cbn zeta.
  rewrite (update_task_hit clock w d l1 l2 t task_id "completed" notes
             Hdoc Htasks Hd Hid Hhit).
  cbn zeta. cbn [String.eqb Ascii.eqb Bool.eqb].
  erewrite bump_metric_without_metrics;
    [| rewrite (document_state_after_persist BACKLOG_PATH)
         by discriminate; exact Hstate
     | exact Hm].
  cbn [fst snd].
  destruct (touch_completed notes (clock (ticks w)) (clock (S (ticks w))) t)
    as (Hst & _ & Hco & _).
  eexists. split; [reflexivity|]. split; [|split; [exact Hst|split]].
  - unfold stored_tasks.
    change (backlog_file ?x) with (read_file BACKLOG_PATH x).
    rewrite persist_read_same. now rewrite dict_get_set_same.
  - exact Hco.
  - rewrite persist_state_file_other by discriminate. reflexivity.
Qed.

End TwoStepProps.


(* ================================================================== *)
(** ** What a request can do to the state document *)
(* ================================================================== *)

Section StateDocument.

Variable clock : nat -> string.
Variable NOTIFICATION_WEBHOOK : string.
Variable post_raises : json -> bool.

(** But for [read_state] and [write_state], a request leaves a state file
    that holds a dictionary as it is, or with one counter of its [metrics]
    replaced. *)
Lemma serve_state_shape (r : request) (w : world) (s : dict) :
  state_file w = Parsed (JDict s) ->
  r <> ReadState -> (forall u, r <> WriteState u) ->
  state_file (snd (serve clock NOTIFICATION_WEBHOOK post_raises r w))
  = Parsed (JDict s)
  \/ exists name c m,
       counter_of r = Some name
       /\ dict_get "metrics" s = Some (JDict m)
       /\ state_file (snd (serve clock NOTIFICATION_WEBHOOK post_raises r w))
          = Parsed (JDict (dict_set "metrics"
                             (JDict (dict_set name c m)) s)).
Proof.
  destruct w as [sf bf af ds db da tk fw]. cbn [state_file].
  intros -> Hr Hw.
  destruct r; try congruence; try (now destruct (Hw state));
    clear Hr Hw; run_unfold; crunch;
    solve [ left; reflexivity
          | right; do 3 eexists; repeat split; eauto ].
Qed.

(** X7. But for [read_state] and [write_state], a request changes nothing
    in a state file that holds a dictionary, except the one counter of
    [metrics] it adds to: every other key of the document and every other
    counter is as before, whether the request succeeds or raises. *)
Theorem serve_state_frame (r : request) (w : world) (s : dict) :
  state_file w = Parsed (JDict s) ->
  r <> ReadState -> (forall u, r <> WriteState u) ->
  exists s',
    state_file (snd (serve clock NOTIFICATION_WEBHOOK post_raises r w))
    = Parsed (JDict s')
    /\ (forall k, k <> "metrics" -> dict_get k s' = dict_get k s)
    /\ (forall name, counter_of r <> Some name ->
          metric name (snd (serve clock NOTIFICATION_WEBHOOK post_raises r w))
          = metric name w).
Proof.
  intros Hs Hr Hw.
  destruct (serve_state_shape r w s Hs Hr Hw)
    as [H|(name & c & m & Hc & Hm & H)].
  - exists s. split; [exact H|]. split; [reflexivity|].
    intros name _. unfold metric. now rewrite H, Hs.
  - eexists. split; [exact H|]. split.
    + intros k Hk. apply dict_get_set_other. congruence.
    + intros name' Hn. unfold metric. rewrite H, Hs, Hm.
      rewrite dict_get_set_same. apply dict_get_set_other. congruence.
Qed.

Lemma state_key_kept (k : string) (dflt : json) (w w' : world)
    (s s' : dict) :
  state_file w = Parsed (JDict s) ->
  state_file w' = Parsed (JDict s') ->
  dict_get k s' = dict_get k s
  \/ dict_get k s'
     = Some match dict_get k s with Some x => x | None => dflt end ->
  state_key k dflt w' = state_key k dflt w.
Proof.
  intros Hs Hs' [H|H]; unfold state_key; rewrite Hs, Hs', H; reflexivity.
Qed.

End StateDocument.


(* ================================================================== *)
(** ** Task ids *)
(* ================================================================== *)

Lemma format_03d_inj (m n : nat) : format_03d m = format_03d n -> m = n.
Proof.
  intros H.
  destruct (format_03d_value m) as (_ & u & Hu & Hm).
  destruct (format_03d_value n) as (_ & v & Hv & Hn).
  rewrite H in Hu. congruence.
Qed.

Lemma numbered_unique (l : list json) :
  numbered l -> NoDup (map (field "id") l).
Proof.
  intros Hl. apply NoDup_nth_error. intros i j Hi Heq.
  rewrite length_map in Hi. rewrite !nth_error_map in Heq.
  destruct (nth_error l i) as [t|] eqn:Ht;
    [|apply nth_error_None in Ht; lia].
  destruct (nth_error l j) as [t'|] eqn:Ht'; [|discriminate].
  cbn in Heq. rewrite (Hl i t Ht), (Hl j t' Ht') in Heq.
  injection Heq as Heq. apply format_03d_inj in Heq. lia.
Qed.

Lemma numbered_snoc (l : list json) (t : json) :
  numbered l ->
  field "id" t = Some (JStr ("task-" ++ format_03d (length l + 1))) ->
  numbered (l ++ [t]).
Proof.
  intros Hl Ht i x Hx.
  destruct (Nat.lt_ge_cases i (length l)) as [Hlt|Hge].
  - rewrite nth_error_app1 in Hx by exact Hlt. now apply Hl.
  - rewrite nth_error_app2 in Hx by exact Hge.
    destruct (i - length l)%nat as [|k] eqn:Hk; cbn in Hx;
      [|destruct k; discriminate].
    injection Hx as <-. rewrite Ht.
    replace (S i) with (length l + 1)%nat by lia. reflexivity.
Qed.

Lemma numbered_touch (l1 l2 : list json) (t : dict) (status : string)
    (notes : option string) (a b : string) :
  numbered (l1 ++ JDict t :: l2) ->
  numbered (l1 ++ JDict (touch status notes a b t) :: l2).
Proof.
  intros Hl i x Hx.
  destruct (Nat.lt_trichotomy i (length l1)) as [Hlt|[Heq|Hgt]].
  - rewrite nth_error_app1 in Hx by exact Hlt.
    apply Hl. now rewrite nth_error_app1.
  - subst i. rewrite nth_error_app2, Nat.sub_diag in Hx by lia.
    cbn in Hx. injection Hx as <-. cbn [field].
    rewrite touch_other by discriminate.
    apply (Hl (length l1) (JDict t)).
    now rewrite nth_error_app2, Nat.sub_diag by lia.
  - rewrite nth_error_app2 in Hx by lia. apply Hl.
    rewrite nth_error_app2 by lia.
    destruct (i - length l1)%nat eqn:Hk; [lia|exact Hx].
Qed.

Lemma existing_ids_same_length (l ids : list json) :
  existing_ids l = Return ids -> length ids = length l.
Proof.
  revert ids. induction l as [|t l IH]; cbn; intros ids H.
  - now injection H as <-.
  - destruct (py_get t "id" (JStr "")); [|discriminate].
    destruct (existing_ids l) as [r|]; [|discriminate].
    injection H as <-. cbn. now rewrite (IH r eq_refl).
Qed.

Section TaskIds.

Variable clock : nat -> string.
Variable NOTIFICATION_WEBHOOK : string.
Variable post_raises : json -> bool.

(** What [add_task] leaves in a well-formed backlog file. *)
Lemma add_task_file (w : world) (d : dict) (l : list json)
    (title description priority : string) :
  backlog_file w = Parsed (JDict d) ->
  dict_get "tasks" d = Some (JList l) ->
  backlog_file (snd (add_task clock title description priority w))
  = Parsed (JDict d)
  \/ exists t,
       field "id" t = Some (JStr ("task-" ++ format_03d (length l + 1)))
       /\ backlog_file (snd (add_task clock title description priority w))
          = Parsed (JDict (dict_set "tasks" (JList (l ++ [t])) d)).
Proof.
  intros Hfile Htasks.
  unfold add_task, bind, load_json, getdefault. cbn.
  rewrite Hfile. cbn. rewrite Htasks. cbn.
  destruct (existing_ids l) as [ids|e] eqn:Hids; cbn.
  - rewrite ?Htasks. cbn. rewrite ?Htasks. cbn.
    right. eexists. split; [|reflexivity]. cbn.
    now rewrite (existing_ids_same_length l ids Hids).
  - left. exact Hfile.
Qed.

(** What [update_task] leaves in a well-formed backlog file. *)
Lemma update_task_file (w : world) (d : dict) (l : list json)
    (task_id status : string) (notes : option string) :
  backlog_file w = Parsed (JDict d) ->
  dict_get "tasks" d = Some (JList l) ->
  backlog_file (snd (update_task clock task_id status notes w))
  = Parsed (JDict d)
  \/ exists l1 t l2 a b,
       l = (l1 ++ JDict t :: l2)%list
       /\ backlog_file (snd (update_task clock task_id status notes w))
          = Parsed (JDict (dict_set "tasks"
                             (JList (l1 ++ JDict (touch status notes a b t)
                                     :: l2)) d)).
Proof.
  intros Hfile Htasks.
  destruct (update_loop_cases clock task_id status notes l w)
    as [(e & He)|[Hnone|(l1 & t & l2 & -> & Hd & Hid & Hhit)]].
  - left. unfold update_task, bind, load_json, getdefault. cbn.
    rewrite Hfile. cbn. rewrite Htasks. cbn. rewrite He. exact Hfile.
  - left. unfold update_task, bind, load_json, getdefault. cbn.
    rewrite Hfile. cbn. rewrite Htasks. cbn. rewrite Hnone. exact Hfile.
  - right. exists l1, t, l2. do 2 eexists. split; [reflexivity|].
    apply (update_task_hit_backlog clock w d l1 l2 t task_id status notes
             (document_parsed BACKLOG_PATH DEFAULT_BACKLOG _ w Hfile)
             Htasks Hd Hid Hhit).
Qed.

(** X8. In a backlog file whose tasks carry the ids task-001, task-002,
    ... by position, every request keeps them so, and the ids in the file
    are pairwise distinct: the id [add_task] derives from the count is
    new. *)
Theorem task_ids_stay_numbered (r : request) (w : world) :
  well_numbered w ->
  well_numbered (snd (serve clock NOTIFICATION_WEBHOOK post_raises r w))
  /\ NoDup (map (field "id")
              (stored_tasks
                 (snd (serve clock NOTIFICATION_WEBHOOK post_raises r w)))).
Proof.
  intros (d & l & Hfile & Htasks & Hl).
  assert (Hwn : well_numbered
                  (snd (serve clock NOTIFICATION_WEBHOOK post_raises r w))).
  { destruct (writes r BACKLOG_PATH) eqn:Hw.
    - destruct r; try discriminate; cbn [serve].
      + destruct (update_task_file w d l task_id status notes Hfile Htasks)
          as [H|(l1 & t & l2 & a & b & -> & H)].
        * now exists d, l.
        * eexists _, _. split; [exact H|]. split; [apply dict_get_set_same|].
          now apply numbered_touch.
      + destruct (add_task_file w d l title description priority Hfile Htasks)
          as [H|(t & Ht & H)].
        * now exists d, l.
        * eexists _, _. split; [exact H|]. split; [apply dict_get_set_same|].
          now apply numbered_snoc.
    - exists d, l. split; [|now split].
      change (read_file BACKLOG_PATH
                (snd (serve clock NOTIFICATION_WEBHOOK post_raises r w))
              = Parsed (JDict d)).
      rewrite (serve_untouched clock NOTIFICATION_WEBHOOK post_raises
                 r BACKLOG_PATH w Hw).
      exact Hfile. }
  split; [exact Hwn|].
  destruct Hwn as (d' & l' & Hfile' & Htasks' & Hl').
  unfold stored_tasks. rewrite Hfile', Htasks'. now apply numbered_unique.
Qed.

End TaskIds.

(* ================================================================== *)
(** ** write_state after write_state *)
(* ================================================================== *)

(** X9. The last [write_state] wins: on a state document that is a
    dictionary, a [write_state] leaves the same world and gives the same
    answer whether or not another [write_state] came just before it, so
    nothing of the earlier document survives; in particular, sending the
    same document twice is the same as sending it once. *)
Theorem write_state_last_wins (w : world) (e u1 u2 : dict) :
  document STATE_PATH DEFAULT_STATE w = JDict e ->
  write_state u2 (snd (write_state u1 w)) = write_state u2 w.
Proof.
  intros Hdoc.
  rewrite (write_state_run w e u1 Hdoc). cbn [snd].
  set (u1' := dict_set "last_wake" _ _).
  set (w1 := write_file STATE_PATH (Parsed (JDict u1')) w).
  assert (Hdoc1 : document STATE_PATH DEFAULT_STATE w1 = JDict u1')
    by reflexivity.
  rewrite (write_state_run w1 u1' u2 Hdoc1), (write_state_run w e u2 Hdoc).
  unfold u1'. dict_simpl. reflexivity.
Qed.

(* ================================================================== *)
(** ** Start-up *)
(* ================================================================== *)

(** The start-up block writes each missing file from its default and
    leaves everything else alone, also a file that does not parse. *)
Lemma main_run (w : world) :
  fst (main w) = Return tt
  /\ (forall p, read_file p (snd (main w))
                = match read_file p w with
                  | Missing => Parsed (global_val (default_of p) w)
                  | f => f
                  end)
  /\ (forall g, global_val g (snd (main w)) = global_val g w).
Proof.
  destruct w as [sf bf af ds db da tk fw].
  unfold main, init_file, save_json, bind, deref. cbn.
  destruct sf, bf, af; cbn; repeat split;
    try (intros p; destruct p; reflexivity);
    try (intros g; destruct g; reflexivity).
Qed.

Section StartUp.

Variable clock : nat -> string.
Variable NOTIFICATION_WEBHOOK : string.
Variable post_raises : json -> bool.

(** X10. A process started through the start-up block on files that are
    each missing or parsable never falls back to a default: after any run
    of requests every file parses and every module-level default still
    holds its literal. *)
Theorem started_by_main_keeps_defaults (s b a : file) (rs : list request)
    (p : path) :
  s <> Unparsable -> b <> Unparsable -> a <> Unparsable ->
  let w := serve_all clock NOTIFICATION_WEBHOOK post_raises rs
             (snd (main (fresh_process s b a))) in
  is_parsed (read_file p w)
  /\ global_val (default_of p) w = literal (default_of p).
Proof.
  intros Hs Hb Ha. cbn zeta.
  assert (Hstart : forall q,
            is_parsed (read_file q (snd (main (fresh_process s b a))))
            /\ global_val (default_of q) (snd (main (fresh_process s b a)))
               = literal (default_of q)).
  { intros q. destruct (main_run (fresh_process s b a)) as (_ & Hf & Hg).
    rewrite Hf, Hg. split; [|now destruct q].
    destruct q; cbn; [destruct s|destruct b|destruct a];
      cbn; congruence || exact I. }
  revert Hstart. generalize (snd (main (fresh_process s b a))).
  induction rs as [|r rs IH]; intros w Hw; cbn [serve_all]; [apply Hw|].
  apply IH. intros q. destruct (Hw q) as [Hq Hg]. split.
  - now apply serve_keeps_parsed.
  - rewrite serve_keeps_default by exact Hq. exact Hg.
Qed.

End StartUp.


(* ================================================================== *)
(** ** Runs of requests *)
(* ================================================================== *)

Section RunProps.

Variable clock : nat -> string.
Variable NOTIFICATION_WEBHOOK : string.
Variable post_raises : json -> bool.

(** One request on a state file that holds a dictionary with an integer
    wake count and a truthy [created_at]. *)
Lemma server_fields_step (r : request) (w : world) (c : Z) (v ca : json) :
  state_key "wake_count" (JInt 0) w = Some (JInt c) ->
  state_key "version" (JStr "1.0") w = Some v ->
  state_key "created_at" JNull w = Some ca ->
  truthy ca = true ->
  let w' := snd (serve clock NOTIFICATION_WEBHOOK post_raises r w) in
  state_key "wake_count" (JInt 0) w'
  = Some (JInt (if is_read_state r then c + 1 else c))
  /\ state_key "version" (JStr "1.0") w' = Some v
  /\ state_key "created_at" JNull w' = Some ca.
Proof.
  intros Hc Hv Hca Ht. cbn zeta.
  assert (Hs : exists s, state_file w = Parsed (JDict s)).
  { unfold state_key in Hc.
    destruct (state_file w) as [| |[| | | | | |s]]; try discriminate.
    now exists s. }
  destruct Hs as [s Hs].
  destruct r as [|u| | | | |]; cbn [is_read_state].
  - (* read_state *)
    cbn [serve].
    assert (Hint : int_field "wake_count" 0 s = Some c).
    { unfold state_key in Hc. rewrite Hs in Hc. unfold int_field.
      destruct (dict_get "wake_count" s) as [x|]; injection Hc as ->;
        reflexivity. }
    destruct (read_state_step clock w s c
                (document_parsed STATE_PATH DEFAULT_STATE _ w Hs) Hint)
      as (s' & _ & Hs' & Hw & _ & Hcr & Hoth).
    unfold state_key in *. rewrite Hs', Hw. rewrite Hs in Hv, Hca.
    split; [reflexivity|]. split.
    + rewrite Hoth by discriminate. exact Hv.
    + rewrite Hcr. unfold first_created.
      destruct (dict_get "created_at" s) as [x|].
      * injection Hca as ->. now rewrite Ht.
      * injection Hca as <-. discriminate.
  - (* write_state *)
    cbn [serve].
    rewrite (write_state_run w s u
               (document_parsed STATE_PATH DEFAULT_STATE _ w Hs)).
    cbn [snd]. rewrite <- Hc, <- Hv, <- Hca.
    repeat split;
      (eapply state_key_kept;
       [exact Hs|reflexivity|right; dict_simpl; reflexivity]).
  - destruct (serve_state_shape clock NOTIFICATION_WEBHOOK post_raises
                (ReadBacklog status_filter) w s Hs)
      as [H|(n & x & m & _ & _ & H)]; try discriminate;
      rewrite <- Hc, <- Hv, <- Hca; repeat split;
      (eapply state_key_kept;
       [exact Hs|exact H|left; dict_simpl; reflexivity]).
  - destruct (serve_state_shape clock NOTIFICATION_WEBHOOK post_raises
                (UpdateTask task_id status notes) w s Hs)
      as [H|(n & x & m & _ & _ & H)]; try discriminate;
      rewrite <- Hc, <- Hv, <- Hca; repeat split;
      (eapply state_key_kept;
       [exact Hs|exact H|left; dict_simpl; reflexivity]).
  - destruct (serve_state_shape clock NOTIFICATION_WEBHOOK post_raises
                (AddTask title description priority) w s Hs)
      as [H|(n & x & m & _ & _ & H)]; try discriminate;
      rewrite <- Hc, <- Hv, <- Hca; repeat split;
      (eapply state_key_kept;
       [exact Hs|exact H|left; dict_simpl; reflexivity]).
  - destruct (serve_state_shape clock NOTIFICATION_WEBHOOK post_raises
                (LogAccomplishment category description impact artifacts)
                w s Hs)
      as [H|(n & x & m & _ & _ & H)]; try discriminate;
      rewrite <- Hc, <- Hv, <- Hca; repeat split;
      (eapply state_key_kept;
       [exact Hs|exact H|left; dict_simpl; reflexivity]).
  - destruct (serve_state_shape clock NOTIFICATION_WEBHOOK post_raises
                (SendNotification message priority channel) w s Hs)
      as [H|(n & x & m & _ & _ & H)]; try discriminate;
      rewrite <- Hc, <- Hv, <- Hca; repeat split;
      (eapply state_key_kept;
       [exact Hs|exact H|left; dict_simpl; reflexivity]).
Qed.

(** X11. Over any run of requests on a state file that holds a dictionary
    with an integer wake count [c] and a truthy [created_at], the wake
    count ends as [c] plus the number of [read_state] requests of the run,
    and [version] and [created_at] end as they began: no other request,
    [write_state] included, moves the server-owned fields. *)
Theorem wake_count_counts_read_state (rs : list request) (w : world)
    (c : Z) (v ca : json) :
  state_key "wake_count" (JInt 0) w = Some (JInt c) ->
  state_key "version" (JStr "1.0") w = Some v ->
  state_key "created_at" JNull w = Some ca ->
  truthy ca = true ->
  let w' := serve_all clock NOTIFICATION_WEBHOOK post_raises rs w in
  state_key "wake_count" (JInt 0) w'
  = Some (JInt (c + Z.of_nat (length (filter is_read_state rs))))
  /\ state_key "version" (JStr "1.0") w' = Some v
  /\ state_key "created_at" JNull w' = Some ca.
Proof.
  intros Hc Hv Hca Ht. cbn zeta. revert w c Hc Hv Hca.
  induction rs as [|r rs IH]; intros w c Hc Hv Hca; cbn [serve_all].
  - cbn. rewrite Z.add_0_r. auto.
  - destruct (server_fields_step r w c v ca Hc Hv Hca Ht)
      as (Hc' & Hv' & Hca').
    destruct (IH _ _ Hc' Hv' Hca') as (H1 & H2 & H3).
    split; [|split; assumption].
    rewrite H1. cbn [filter]. destruct (is_read_state r); cbn [length];
      do 2 f_equal; lia.
Qed.

(** X12. Over any run of requests, a file that no request of the run may
    write is at the end exactly as at the start, whatever the files and
    defaults hold and whichever requests raise.  A request may write the
    file of its own document, and the state file when it bumps a metric;
    an [update_task] bumps one only for status completed. *)
Theorem run_footprint (rs : list request) (p : path) (w : world) :
  Forall (fun r => writes r p = false) rs ->
  read_file p (serve_all clock NOTIFICATION_WEBHOOK post_raises rs w)
  = read_file p w.
Proof.
  intros Hrs. revert w.
  induction Hrs as [|r rs Hr _ IH]; intros w; cbn [serve_all];
    [reflexivity|].
  rewrite IH. now apply serve_untouched.
Qed.

(** X13. A file that parses shields its default: over any run of requests,
    a file that parsed at the start parses at the end, and the module-level
    default of its path is the object it was, so no request of the run has
    loaded or changed it. *)
Theorem parsed_file_shields_default (rs : list request) (p : path)
    (w : world) :
  is_parsed (read_file p w) ->
  is_parsed (read_file p
               (serve_all clock NOTIFICATION_WEBHOOK post_raises rs w))
  /\ global_val (default_of p)
       (serve_all clock NOTIFICATION_WEBHOOK post_raises rs w)
     = global_val (default_of p) w.
Proof.
  revert w. induction rs as [|r rs IH]; intros w Hp; cbn [serve_all];
    [now split|].
  destruct (IH (snd (serve clock NOTIFICATION_WEBHOOK post_raises r w))
              (serve_keeps_parsed clock NOTIFICATION_WEBHOOK post_raises
                 r p w Hp)) as [H1 H2].
  split; [exact H1|]. rewrite H2.
  now apply serve_keeps_default.
Qed.

(** X14. The accomplishments log is append-only: after any run of requests
    on a log file that holds a dictionary with a list of entries, the file
    holds the same entries, in the same order, followed by the new ones. *)
Theorem accomplishments_append_only (rs : list request) (w : world)
    (a : dict) (l : list json) :
  accomplishments_file w = Parsed (JDict a) ->
  dict_get "accomplishments" a = Some (JList l) ->
  exists a' extra,
    accomplishments_file
      (serve_all clock NOTIFICATION_WEBHOOK post_raises rs w)
    = Parsed (JDict a')
    /\ dict_get "accomplishments" a' = Some (JList (l ++ extra))
    /\ (length extra <= length rs)%nat.
Proof.
  revert w a l. induction rs as [|r rs IH]; intros w a l Hfile Hl;
    cbn [serve_all].
  - exists a, []. rewrite List.app_nil_r. auto.
  - assert (Hstep : exists a1 e1,
              accomplishments_file
                (snd (serve clock NOTIFICATION_WEBHOOK post_raises r w))
              = Parsed (JDict a1)
              /\ dict_get "accomplishments" a1 = Some (JList (l ++ e1))
              /\ (length e1 <= 1)%nat).
    { destruct (writes r ACCOMPLISHMENTS_PATH) eqn:Hw.
      - destruct r; try discriminate. cbn [serve].
        rewrite (log_accomplishment_run clock w a l category description
                   impact artifacts
                   (document_parsed ACCOMPLISHMENTS_PATH
                      DEFAULT_ACCOMPLISHMENTS _ w Hfile)
                   ltac:(now rewrite Hl)).
        cbn zeta.
        match goal with |- context [bump_metric ?n ?w0] =>
          pose proof (serve_untouched clock NOTIFICATION_WEBHOOK post_raises
                        (SendNotification "" "" "") ACCOMPLISHMENTS_PATH w0
                        eq_refl) as Hb;
          set (w1 := w0) in *
        end.
        assert (Hk : accomplishments_file
                       (snd (bump_metric "total_accomplishments" w1))
                     = accomplishments_file w1).
        { clear Hb. destruct w1 as [sf bf af ds db da tk fw].
          run_unfold; crunch; reflexivity. }
        eexists _, [_].
        destruct (bump_metric "total_accomplishments" w1) as [[[]|e] w2];
          cbn [snd] in *; rewrite Hk; unfold w1;
          change (accomplishments_file ?x)
            with (read_file ACCOMPLISHMENTS_PATH x);
          rewrite persist_read_same;
          (split; [reflexivity|]); (split; [apply dict_get_set_same|]);
          cbn; lia.
      - exists a, []. rewrite List.app_nil_r.
        change (accomplishments_file ?x)
          with (read_file ACCOMPLISHMENTS_PATH x).
        rewrite (serve_untouched clock NOTIFICATION_WEBHOOK post_raises r
                   ACCOMPLISHMENTS_PATH w Hw).
        cbn. auto. }
    destruct Hstep as (a1 & e1 & Hf1 & Hl1 & Hn1).
    destruct (IH _ a1 (l ++ e1)%list Hf1 Hl1) as (a' & e2 & Hf' & Hl' & Hn').
    exists a', (e1 ++ e2)%list. split; [exact Hf'|]. split.
    + now rewrite List.app_assoc.
    + rewrite length_app. cbn [length]. lia.
Qed.

(** X15. The id [add_task] returns finds the new task: on a backlog file
    whose tasks are numbered, [add_task] followed by [update_task] with the
    returned id (and a status other than completed) succeeds and changes
    the task just added, which keeps its id and title, and no other. *)
Theorem added_task_is_found (w : world) (d : dict) (l : list json)
    (title description priority status : string) (notes : option string) :
  backlog_file w = Parsed (JDict d) ->
  dict_get "tasks" d = Some (JList l) ->
  numbered l ->
  status <> "completed" ->
  let id := "task-" ++ format_03d (length l + 1) in
  let w1 := snd (add_task clock title description priority w) in
  fst (add_task clock title description priority w)
  = Return (JDict [("success", JBool true);
                   ("task_id", JStr id);
                   ("message", JStr ("Task added: " ++ title))])
  /\ fst (update_task clock id status notes w1)
     = Return (JDict [("success", JBool true);
                      ("message",
                        JStr ("Task " ++ id ++ " updated to " ++ status))])
  /\ exists t',
       stored_tasks (snd (update_task clock id status notes w1))
       = (l ++ [JDict t'])%list
       /\ dict_get "id" t' = Some (JStr id)
       /\ dict_get "title" t' = Some (JStr title)
       /\ dict_get "status" t' = Some (JStr status).
Proof.
  intros Hfile Htasks Hl Hs. cbn zeta.
  assert (Hdicts : Forall is_dict l).
  { apply Forall_forall. intros t Ht. apply In_nth_error in Ht.
    destruct Ht as [i Hi]. specialize (Hl i t Hi).
    destruct t; cbn in Hl; try discriminate. exact I. }
  assert (Hnew : Forall (fun x => has_id ("task-" ++ format_03d (length l + 1))
                                         x = false) l).
  { apply Forall_forall. intros t Ht. apply In_nth_error in Ht.
    destruct Ht as [i Hi]. pose proof (Hl i t Hi) as Hid.
    unfold has_id. rewrite Hid. cbn [py_eq_str].
    apply String.eqb_neq. intros Heq. injection Heq as Heq.
    apply format_03d_inj in Heq.
    assert (i < length l)%nat by (apply nth_error_Some; congruence). lia. }
  rewrite (add_task_run clock w d l title description priority
             (document_parsed BACKLOG_PATH DEFAULT_BACKLOG _ w Hfile)
             ltac:(now rewrite Htasks) Hdicts).
  cbn [fst snd]. split; [reflexivity|].
  set (id := "task-" ++ format_03d (length l + 1)) in *.
  set (t := [("id", JStr id); ("title", JStr title);
             ("description", JStr description);
             ("priority", JStr priority); ("status", JStr "pending");
             ("created_at", JStr (clock (ticks w)))]).
  set (d1 := dict_set "tasks" (JList (l ++ [JDict t])) d).
  set (w1 := persist BACKLOG_PATH DEFAULT_BACKLOG (JDict d1) (tick 1 w)).
  assert (Hdoc1 : document BACKLOG_PATH DEFAULT_BACKLOG w1 = JDict d1)
    by (apply document_parsed; apply persist_read_same).
  assert (Htasks1 : dict_get "tasks" d1 = Some (JList (l ++ JDict t :: [])))
    by apply dict_get_set_same.
  assert (Hhit : has_id id (JDict t) = true).
  { unfold has_id, t. cbn. apply String.eqb_refl. }
  pose proof (update_task_hit clock w1 d1 l [] t id status notes
                Hdoc1 Htasks1 Hdicts Hnew Hhit) as Hrun.
  cbn zeta in Hrun.
  destruct (String.eqb_spec status "completed") as [|_]; [congruence|].
  unfold new_task. fold t. fold d1. fold w1.
  rewrite Hrun. cbn [fst snd]. split; [reflexivity|].
  eexists. split.
  - unfold stored_tasks.
    change (backlog_file ?x) with (read_file BACKLOG_PATH x).
    rewrite persist_read_same. now rewrite dict_get_set_same.
  - split; [|split].
    + rewrite touch_other by discriminate. reflexivity.
    + rewrite touch_other by discriminate. reflexivity.
    + apply touch_status.
Qed.

End RunProps.

(* ================================================================== *)
(** ** read_backlog and the backlog default *)
(* ================================================================== *)

(** X16. [read_backlog] is not read-only in memory: when the backlog file
    is missing or does not parse, the sort of filter [all] is the in-place
    sort of the list inside [DEFAULT_BACKLOG]; after the call the default
    holds its tasks in the order of the answer, and nothing else in the
    world has changed.  With any other filter the world is unchanged:
    the comprehension builds a list of its own. *)
Theorem read_backlog_sorts_default_in_place (w : world) (d : dict)
    (l : list json) :
  backlog_file w = Missing \/ backlog_file w = Unparsable ->
  global_val DEFAULT_BACKLOG w = JDict d ->
  dict_get "tasks" d = Some (JList l) ->
  Forall (fun t => sortable t = true) l ->
  exists r,
    Permutation r l
    /\ StronglySorted rank_le r
    /\ fst (read_backlog "all" w) = Return (backlog_response r)
    /\ snd (read_backlog "all" w)
       = set_global DEFAULT_BACKLOG (JDict (dict_set "tasks" (JList r) d)) w
    /\ forall f, String.eqb f "all" = false -> snd (read_backlog f w) = w.
Proof.
  intros Hfile Hg Htasks Hl.
  destruct (sort_by_priority_spec l Hl) as (r & Hr & Hperm & Hsorted & _).
  exists r. split; [exact Hperm|]. split; [exact Hsorted|].
  destruct w as [sf bf af ds db da tk fw]. cbn in Hfile, Hg. subst db.
  assert (Hrun : read_backlog "all" (mkWorld sf bf af ds (JDict d) da tk fw)
                 = (Return (backlog_response r),
                    mkWorld sf bf af ds
                      (JDict (dict_set "tasks" (JList r) d)) da tk fw)).
  { unfold read_backlog, bind, load_json, deref, lift, setitem, store, ret.
    cbn. destruct Hfile as [-> | ->]; cbn; rewrite Htasks; cbn;
      rewrite Hr; cbn; rewrite ?Htasks; reflexivity. }
  rewrite Hrun. split; [reflexivity|]. split; [reflexivity|].
  intros f Hf. unfold read_backlog, bind, load_json, deref, lift, ret.
  cbn. rewrite Hf. cbn.
  destruct Hfile as [-> | ->]; cbn; rewrite Htasks; cbn;
    destruct (filter_status f l) as [k|e]; cbn; try reflexivity;
    destruct (sort_by_priority k); reflexivity.
Qed.

(* ================================================================== *)
(** ** Concrete runs *)
(* ================================================================== *)

Lemma wall_clock_nonempty (t : nat) : wall_clock t <> "".
Proof. unfold wall_clock. cbn. discriminate. Qed.

(** C6 as stated fails: a task completed at reading 2 of the clock is
    completed again, and its [completed_at] is overwritten with reading 4. *)
Lemma completed_at_overwritten :
  option_map (field "status") (nth_error (stored_tasks completed_once) 0)
  = Some (Some (JStr "completed"))
  /\ option_map (field "completed_at")
       (nth_error (stored_tasks completed_once) 0)
     = Some (Some (JStr "2026-01-01T00:00:00.002+00:00"))
  /\ option_map (field "completed_at")
       (nth_error (stored_tasks completed_twice) 0)
     = Some (Some (JStr "2026-01-01T00:00:00.004+00:00"))
  /\ option_map (field "completed_at")
       (nth_error (stored_tasks completed_twice) 0)
     <> option_map (field "completed_at")
          (nth_error (stored_tasks completed_once) 0).
Proof.
  repeat split; try (vm_compute; reflexivity).
  vm_compute. discriminate.
Qed.

(** C5 as stated fails: after a [write_state] whose document has no
    [metrics], task-001 is in the backlog, and [update_task] with status
    completed raises [KeyError] instead of succeeding; the state document
    has no [tasks_completed] afterwards. *)
Lemma completion_raises_without_metrics :
  option_map (field "id") (nth_error (stored_tasks no_metrics) 0)
  = Some (Some (JStr "task-001"))
  /\ fst (update_task wall_clock "task-001" "completed" None no_metrics)
     = Raise (KeyError "metrics")
  /\ metric "tasks_completed"
       (snd (update_task wall_clock "task-001" "completed" None no_metrics))
     = None.
Proof.
  repeat split; vm_compute; reflexivity.
Qed.

(** C9 as stated fails: on the same state document [send_notification]
    raises [KeyError] instead of reporting success, and the state file is
    as before: no [notifications_sent] was counted. *)
Lemma notification_raises_without_metrics :
  fst (send_notification wall_clock "http://hook" (fun _ => false)
         "disk full" "urgent" "webhook" no_metrics)
  = Raise (KeyError "metrics")
  /\ state_file
       (snd (send_notification wall_clock "http://hook" (fun _ => false)
               "disk full" "urgent" "webhook" no_metrics))
     = state_file no_metrics
  /\ metric "notifications_sent"
       (snd (send_notification wall_clock "http://hook" (fun _ => false)
               "disk full" "urgent" "webhook" no_metrics))
     = None.
Proof.
  repeat split; vm_compute; reflexivity.
Qed.

(** C1 on a fresh process: the third call returns wake count 3. *)
Lemma read_state_sequence_witness :
  exists d',
    fst (read_state wall_clock (after 2 (read_state wall_clock) empty_start))
    = Return (JDict [("success", JBool true); ("state", JDict d')])
    /\ dict_get "wake_count" d' = Some (JInt 3)
    /\ dict_get "created_at" d'
       = Some (JStr "2026-01-01T00:00:00.001+00:00").
Proof.
  destruct (read_state_sequence wall_clock empty_start _ 0 2
              wall_clock_nonempty eq_refl eq_refl)
    as (d' & H1 & _ & H2 & _ & H3 & _).
  exists d'. split; [exact H1|]. split; [exact H2|exact H3].
Defined.

(** C2 on a fresh process: the caller's 9999 is discarded. *)
Lemma write_state_protected_witness :
  exists u',
    write_state [("current_focus", JStr "X"); ("wake_count", JInt 9999)]
                empty_start
    = (Return (JDict [("success", JBool true);
                      ("message", JStr "State updated")]),
       write_file STATE_PATH (Parsed (JDict u')) empty_start)
    /\ dict_get "wake_count" u' = Some (JInt 0)
    /\ dict_get "current_focus" u' = Some (JStr "X").
Proof.
  destruct (write_state_protected wall_clock empty_start _
              [("current_focus", JStr "X"); ("wake_count", JInt 9999)]
              eq_refl)
    as (u' & H1 & _ & H2 & _ & _ & H3 & _).
  exists u'. split; [exact H1|]. split; [exact H2|].
  rewrite H3; [reflexivity|].
  unfold protected. intros [H|[H|[H|H]]]; discriminate.
Defined.

(** C3 on the backlog of [two_tasks]: of a task in progress and a pending
    one, the filter pending returns the pending one alone. *)
Lemma read_backlog_sorted_witness :
  fst (read_backlog "pending" two_tasks)
  = Return (JDict [("success", JBool true);
                   ("tasks",
                     JList [new_task "task-002" "t2" "d2" "urgent"
                                     "2026-01-01T00:00:00.001+00:00"]);
                   ("total", JInt 1)])
  /\ backlog_file (snd (read_backlog "pending" two_tasks))
     = backlog_file two_tasks.
Proof.
  destruct (read_backlog_sorted wall_clock two_tasks _ _ "pending"
              eq_refl eq_refl ltac:(repeat constructor))
    as ((r & Hr & Hperm & _) & _ & _ & Hb & _).
  split; [|exact Hb].
  rewrite Hr. cbn in Hperm.
  apply Permutation_sym, Permutation_length_1_inv in Hperm.
  subst r. reflexivity.
Defined.

(** C4 on the backlog of [one_task]. *)
Lemma update_task_not_found_witness :
  update_task wall_clock "task-002" "completed" None one_task
  = (Raise (HTTPException 404 "Task task-002 not found"), one_task).
Proof.
  refine (update_task_not_found wall_clock one_task _ _ "task-002"
            "completed" None eq_refl eq_refl _ _);
    repeat constructor.
Defined.

(** C5 on the backlog of [one_task]. *)
Lemma update_task_completed_witness :
  metric "tasks_completed" completed_once = Some (JInt 1)
  /\ metric "tasks_completed" completed_twice = Some (JInt 2).
Proof.
  destruct (update_task_completed wall_clock one_task _ [] [] _ "task-001"
              None _ _ 0 eq_refl eq_refl (Forall_nil _) (Forall_nil _)
              eq_refl eq_refl eq_refl eq_refl)
    as (t1 & t2 & _ & _ & _ & _ & _ & _ & H1 & _ & _ & _ & H2).
  split; [exact H1|exact H2].
Defined.

(** C6 on the second completion of task-001. *)
Lemma task_id_fixed_completion_restamped_witness :
  exists t',
    nth_error (stored_tasks completed_twice) 0 = Some t'
    /\ field "id" t' = Some (JStr "task-001").
Proof.
  destruct (task_id_fixed_completion_restamped wall_clock "" (fun _ => false)
              (UpdateTask "task-001" "completed" None) completed_once 0 _
              eq_refl)
    as (t' & H1 & H2 & _).
  exists t'. split; [exact H1|exact H2].
Defined.

(** C7 on a fresh process. *)
Lemma add_task_appends_witness :
  fst (add_task wall_clock "t1" "d1" "high" empty_start)
  = Return (JDict [("success", JBool true);
                   ("task_id", JStr "task-001");
                   ("message", JStr "Task added: t1")]).
Proof.
  destruct (add_task_appends wall_clock empty_start _ [] "t1" "d1" "high"
              eq_refl eq_refl (Forall_nil _))
    as (d' & H & _).
  exact H.
Defined.

(** C9 on a fresh process whose webhook always fails. *)
Lemma send_notification_counts_witness :
  fst (send_notification wall_clock "http://hook" (fun _ => true)
                         "disk full" "urgent" "webhook" empty_start)
  = Return (JDict [("success", JBool true);
                   ("message", JStr "Notification sent")])
  /\ metric "notifications_sent"
       (snd (send_notification wall_clock "http://hook" (fun _ => true)
                               "disk full" "urgent" "webhook" empty_start))
     = Some (JInt 1).
Proof.
  destruct (send_notification_counts wall_clock "http://hook" (fun _ => true)
              empty_start _ _ 0 "disk full" "urgent" "webhook"
              eq_refl eq_refl eq_refl)
    as (H1 & H2 & _).
  split; [exact H1|exact H2].
Defined.

(** C10 on the backlog of [one_task]. *)
Lemma update_task_keeps_notes_witness :
  exists t',
    stored_tasks (snd (update_task wall_clock "task-001" "in_progress"
                                   (Some "") one_task))
    = [JDict t']
    /\ dict_get "notes" t' = None
    /\ dict_get "status" t' = Some (JStr "in_progress").
Proof.
  destruct (update_task_keeps_notes wall_clock one_task _ [] [] _ "task-001"
              "in_progress" (Some "") eq_refl eq_refl (Forall_nil _)
              (Forall_nil _) eq_refl)
    as (t' & H1 & H2 & _ & H3 & _).
  exists t'. split; [exact H1|]. split; [|exact H2].
  rewrite H3; [reflexivity|now right].
Defined.

(** X1 on the backlog of [one_task]: the 404 of an unknown id. *)
Lemma serve_raise_writes_nothing_witness :
  (read_file BACKLOG_PATH
     (snd (serve wall_clock "" (fun _ => false)
             (UpdateTask "task-002" "in_progress" None) one_task))
   = read_file BACKLOG_PATH one_task
   /\ global_val DEFAULT_BACKLOG
        (snd (serve wall_clock "" (fun _ => false)
                (UpdateTask "task-002" "in_progress" None) one_task))
      = global_val DEFAULT_BACKLOG one_task)
  /\ forwarded
       (snd (serve wall_clock "" (fun _ => false)
               (UpdateTask "task-002" "in_progress" None) one_task))
     = forwarded one_task.
Proof.
  destruct (serve_raise_writes_nothing wall_clock "" (fun _ => false)
              (UpdateTask "task-002" "in_progress" None) one_task
              (HTTPException 404 "Task task-002 not found")
              eq_refl eq_refl) as [H1 H2].
  split; [exact (H1 BACKLOG_PATH)|exact H2].
Defined.

(** X4 on a fresh process. *)
Lemma log_accomplishment_appends_witness :
  fst (log_accomplishment wall_clock "code" "parser" "high" ["parser.py"]
         empty_start)
  = Return (JDict [("success", JBool true);
                   ("message", JStr "Accomplishment logged")])
  /\ stored_accomplishments one_entry
     = [JDict [("timestamp", JStr "2026-01-01T00:00:00.000+00:00");
               ("category", JStr "code");
               ("description", JStr "parser");
               ("impact", JStr "high");
               ("artifacts", JList [JStr "parser.py"])]]
  /\ metric "total_accomplishments" one_entry = Some (JInt 1).
Proof.
  exact (log_accomplishment_appends wall_clock empty_start _ [] "code"
           "parser" "high" ["parser.py"] _ _ 0
           eq_refl eq_refl eq_refl eq_refl eq_refl).
Defined.

(** X5 on a state document that [write_state] left without [metrics]. *)
Lemma log_accomplishment_half_done_witness :
  fst (log_accomplishment wall_clock "code" "parser" "high" [] no_metrics)
  = Raise (KeyError "metrics")
  /\ stored_accomplishments
       (snd (log_accomplishment wall_clock "code" "parser" "high" []
               no_metrics))
     = [new_entry "2026-01-01T00:00:00.001+00:00" "code" "parser" "high" []]
  /\ state_file
       (snd (log_accomplishment wall_clock "code" "parser" "high" []
               no_metrics))
     = state_file no_metrics.
Proof.
  exact (log_accomplishment_half_done wall_clock no_metrics _ [] "code"
           "parser" "high" [] _ eq_refl eq_refl eq_refl eq_refl).
Defined.

(** X6 on the same state document: task-001 is completed in the backlog,
    and the call raises. *)
Lemma update_task_half_done_witness :
  exists t',
    fst (update_task wall_clock "task-001" "completed" None no_metrics)
    = Raise (KeyError "metrics")
    /\ stored_tasks
         (snd (update_task wall_clock "task-001" "completed" None no_metrics))
       = [JDict t']
    /\ dict_get "status" t' = Some (JStr "completed").
Proof.
  destruct (update_task_half_done wall_clock no_metrics _ [] [] _ "task-001"
              None _ eq_refl eq_refl (Forall_nil _) (Forall_nil _)
              eq_refl eq_refl eq_refl)
    as (t' & H1 & H2 & H3 & _).
  exists t'. split; [exact H1|]. split; [exact H2|exact H3].
Defined.

(** X7 on a started process: a notification leaves [tasks_completed]. *)
Lemma serve_state_frame_witness :
  metric "tasks_completed"
    (snd (serve wall_clock "" (fun _ => false)
            (SendNotification "disk full" "low" "webhook") started))
  = metric "tasks_completed" started.
Proof.
  destruct (serve_state_frame wall_clock "" (fun _ => false)
              (SendNotification "disk full" "low" "webhook") started _
              eq_refl ltac:(discriminate) ltac:(discriminate))
    as (s' & _ & _ & H).
  apply H. discriminate.
Defined.

(** X8 on the backlog of [one_task]: a second task gets a second id. *)
Lemma task_ids_stay_numbered_witness :
  NoDup (map (field "id")
           (stored_tasks
              (snd (serve wall_clock "" (fun _ => false)
                      (AddTask "t2" "d2" "low") one_task)))).
Proof.
  refine (proj2 (task_ids_stay_numbered wall_clock "" (fun _ => false)
                   (AddTask "t2" "d2" "low") one_task _)).
  eexists _, _. split; [reflexivity|]. split; [reflexivity|].
  intros [|[|i]] t Ht; cbn in Ht; try discriminate.
  injection Ht as <-. reflexivity.
Defined.

(** X9 on a fresh process. *)
Lemma write_state_last_wins_witness :
  write_state [("current_focus", JStr "Y")]
    (snd (write_state [("current_focus", JStr "X"); ("mood", JStr "calm")]
            empty_start))
  = write_state [("current_focus", JStr "Y")] empty_start.
Proof.
  exact (write_state_last_wins empty_start _
           [("current_focus", JStr "X"); ("mood", JStr "calm")]
           [("current_focus", JStr "Y")] eq_refl).
Defined.

(** X10 on an empty data directory. *)
Lemma started_by_main_keeps_defaults_witness :
  is_parsed
    (read_file BACKLOG_PATH
       (serve_all wall_clock "" (fun _ => false)
          [AddTask "t1" "d1" "high"; ReadBacklog "all"] started))
  /\ global_val DEFAULT_BACKLOG
       (serve_all wall_clock "" (fun _ => false)
          [AddTask "t1" "d1" "high"; ReadBacklog "all"] started)
     = literal DEFAULT_BACKLOG.
Proof.
  refine (started_by_main_keeps_defaults wall_clock "" (fun _ => false)
            Missing Missing Missing
            [AddTask "t1" "d1" "high"; ReadBacklog "all"] BACKLOG_PATH
            _ _ _); discriminate.
Defined.

(** X11 on a process that has woken once: two more [read_state] among
    other requests give wake count 3. *)
Lemma wake_count_counts_read_state_witness :
  state_key "wake_count" (JInt 0)
    (serve_all wall_clock "" (fun _ => false)
       [ReadState; WriteState [("wake_count", JInt 9999)];
        AddTask "t1" "d1" "high"; ReadState] woken)
  = Some (JInt 3).
Proof.
  exact (proj1 (wake_count_counts_read_state wall_clock "" (fun _ => false)
                  [ReadState; WriteState [("wake_count", JInt 9999)];
                   AddTask "t1" "d1" "high"; ReadState] woken 1 _ _
                  eq_refl eq_refl eq_refl eq_refl)).
Defined.

(** X12 on a fresh process: backlog requests create no state file. *)
Lemma run_footprint_witness :
  read_file STATE_PATH
    (serve_all wall_clock "" (fun _ => false)
       [AddTask "t1" "d1" "high";
        UpdateTask "task-001" "in_progress" None;
        ReadBacklog "all"] empty_start)
  = Missing.
Proof.
  refine (run_footprint wall_clock "" (fun _ => false)
            [AddTask "t1" "d1" "high";
             UpdateTask "task-001" "in_progress" None;
             ReadBacklog "all"] STATE_PATH empty_start _).
  repeat constructor.
Defined.

(** X13 on the backlog of [one_task]. *)
Lemma parsed_file_shields_default_witness :
  is_parsed
    (read_file BACKLOG_PATH
       (serve_all wall_clock "" (fun _ => false)
          [AddTask "t2" "d2" "low"; ReadBacklog "all"] one_task))
  /\ global_val DEFAULT_BACKLOG
       (serve_all wall_clock "" (fun _ => false)
          [AddTask "t2" "d2" "low"; ReadBacklog "all"] one_task)
     = global_val DEFAULT_BACKLOG one_task.
Proof.
  exact (parsed_file_shields_default wall_clock "" (fun _ => false)
           [AddTask "t2" "d2" "low"; ReadBacklog "all"] BACKLOG_PATH
           one_task I).
Defined.

(** X14 on the log of [one_entry]. *)
Lemma accomplishments_append_only_witness :
  exists a' extra,
    accomplishments_file
      (serve_all wall_clock "" (fun _ => false)
         [LogAccomplishment "docs" "readme" "low" []; ReadState] one_entry)
    = Parsed (JDict a')
    /\ dict_get "accomplishments" a'
       = Some (JList (stored_accomplishments one_entry ++ extra))
    /\ (length extra <= 2)%nat.
Proof.
  exact (accomplishments_append_only wall_clock "" (fun _ => false)
           [LogAccomplishment "docs" "readme" "low" []; ReadState]
           one_entry _ _ eq_refl eq_refl).
Defined.

(** X15 on the backlog of [one_task]: the second task is found by the id
    that [add_task] returned. *)
Lemma added_task_is_found_witness :
  fst (add_task wall_clock "t2" "d2" "low" one_task)
  = Return (JDict [("success", JBool true);
                   ("task_id", JStr "task-002");
                   ("message", JStr "Task added: t2")])
  /\ fst (update_task wall_clock "task-002" "in_progress" None
            (snd (add_task wall_clock "t2" "d2" "low" one_task)))
     = Return (JDict [("success", JBool true);
                      ("message",
                        JStr "Task task-002 updated to in_progress")]).
Proof.
  assert (Hn : numbered (stored_tasks one_task)).
  { intros [|[|i]] t Ht; cbn in Ht; try discriminate.
    injection Ht as <-. reflexivity. }
  destruct (added_task_is_found wall_clock one_task _ _ "t2" "d2" "low"
              "in_progress" None eq_refl eq_refl Hn ltac:(discriminate))
    as (H1 & H2 & _).
  split; [exact H1|exact H2].
Defined.

(** X16 on a process that lost its backlog file twice: the default holds
    two tasks, and [read_backlog] leaves them in the order of its answer. *)
Lemma read_backlog_sorts_default_in_place_witness :
  exists r,
    Permutation r
      [new_task "task-001" "t1" "d1" "high" "2026-01-01T00:00:00.000+00:00";
       new_task "task-002" "t2" "d2" "urgent" "2026-01-01T00:00:00.001+00:00"]
    /\ StronglySorted rank_le r
    /\ global_val DEFAULT_BACKLOG (snd (read_backlog "all" twice_lost))
       = JDict [("tasks", JList r)].
Proof.
  destruct (read_backlog_sorts_default_in_place twice_lost _ _
              (or_introl eq_refl) eq_refl eq_refl
              ltac:(repeat constructor))
    as (r & H1 & H2 & _ & H3 & _).
  exists r. split; [exact H1|]. split; [exact H2|].
  rewrite H3. reflexivity.
Defined.
